(** * Nivaara Realty WhatsApp bot: the conversation flow of [server.js]

    A shallow embedding of the two webhook handlers of [server.js] with
    the functions they call, and the properties of the conversation flow
    proved about them.

    Conventions of the embedding.
    - A JavaScript string is a [string]: the bytes of its UTF-8 encoding.
      Every literal of the source is written as it is there, with [LF]
      standing for the escape [\n].
    - The [Map] named [state] is a [gmap string UserState]; the object that
      [getUserState] returns is the entry stored under the key, so a field
      assignment through it is an update of that entry.
    - The sender of a message is a string (the JSDoc of [getUserState]),
      and so are the query parameters of the verification.  The links of
      the chain [entry?.[0]?.changes?.[0]?.value?.messages?.[0]] that may
      be missing are [option]s, and so is [req.body].  What a message
      carries besides its sender is not trusted: the member its type
      selects may be missing, an identifier or a text body may be a value
      that is not a string, and reading through a missing object raises
      as it does in the source.
    - The JSON body parser installed before the handlers refuses a body
      that is too long or that is not JSON, and the handler does not run
      then.
    - [sendMessage] is a call to an outside service that may be rejected:
      the k-th call of one delivery is accepted when [net k] is [true], and
      raises otherwise.  Every call is recorded with its outcome.
    - A delivery is handled from its first statement to its response
      before the next one starts. *)

From Stdlib Require Import String Ascii List Bool Arith Lia.
From stdpp Require Import base option list strings gmap fin_maps.

Local Open Scope string_scope.
Local Open Scope list_scope.

(** ** JavaScript string operations used by the handlers *)

Module JsString.

Definition chr (n : nat) : string := String (ascii_of_nat n) "".

(** The escape [\n]. *)
Definition LF : string := chr 10.

(** [String.prototype.trim] removes WhiteSpace and LineTerminator code
    points: U+0009..U+000D, U+0020, U+00A0, U+1680, U+2000..U+200A,
    U+2028, U+2029, U+202F, U+205F, U+3000, U+FEFF.  Here they are in
    UTF-8. *)
Definition utf8_3 (a b c : nat) : string := chr a +:+ chr b +:+ chr c.

Definition white_space : list string :=
  [ chr 9; chr 10; chr 11; chr 12; chr 13; chr 32;
    chr 194 +:+ chr 160;
    utf8_3 225 154 128;
    utf8_3 226 128 128; utf8_3 226 128 129; utf8_3 226 128 130;
    utf8_3 226 128 131; utf8_3 226 128 132; utf8_3 226 128 133;
    utf8_3 226 128 134; utf8_3 226 128 135; utf8_3 226 128 136;
    utf8_3 226 128 137; utf8_3 226 128 138;
    utf8_3 226 128 168; utf8_3 226 128 169; utf8_3 226 128 175;
    utf8_3 226 129 159;
    utf8_3 227 128 128;
    utf8_3 239 187 191 ].

(** Length of the white space that [s] starts with, among [ws]. *)
Fixpoint leading (ws : list string) (s : string) : option nat :=
  match ws with
  | [] => None
  | w :: ws' => if String.prefix w s then Some (String.length w) else leading ws' s
  end.

(** Drops the white space [s] starts with; [skip] counts the bytes still
    to drop of the code point being removed. *)
Fixpoint strip (ws : list string) (skip : nat) (s : string) : string :=
  match s with
  | "" => ""
  | String c s' =>
      match skip with
      | S k => strip ws k s'
      | O =>
          match leading ws s with
          | Some n => strip ws (n - 1) s'
          | None => s
          end
      end
  end.

Definition trimStart (s : string) : string := strip white_space 0 s.

Definition trimEnd (s : string) : string :=
  String.rev (strip (map String.rev white_space) 0 (String.rev s)).

Definition trim (s : string) : string := trimEnd (trimStart s).

(** Canonicalisation of a code unit under the flag [i] (without [u]): the
    upper-case form.  [a]..[z] go to [A]..[Z]; no code point outside ASCII
    is canonicalised to an ASCII one, and the bytes of its encoding are all
    above 127, so they stay. *)
Definition canonicalize (c : ascii) : ascii :=
  let n := nat_of_ascii c in
  if ((97 <=? n)%nat && (n <=? 122)%nat)%bool then ascii_of_nat (n - 32) else c.

(** [/^lit$/i.test(s)] for a literal [lit] of letters. *)
Fixpoint test_literal_i (lit s : string) : bool :=
  match lit, s with
  | "", "" => true
  | String a lit', String b s' =>
      Ascii.eqb (canonicalize a) (canonicalize b) && test_literal_i lit' s'
  | _, _ => false
  end.

(** [/^(hi|hello)$/i.test(s)] *)
Definition test_hi_hello (s : string) : bool :=
  test_literal_i "hi" s || test_literal_i "hello" s.

(** [/^callback$/i.test(s)] *)
Definition test_callback (s : string) : bool :=
  test_literal_i "callback" s.

Fixpoint drop (n : nat) (s : string) : string :=
  match n, s with
  | S k, String _ s' => drop k s'
  | _, _ => s
  end.

(** [s.replace(pat, rep)] for a string [pat]: the first occurrence only.
    ([rep] holds no [$] in the source.) *)
Fixpoint replace (pat rep s : string) : string :=
  if String.prefix pat s then rep +:+ drop (String.length pat) s
  else match s with
       | "" => ""
       | String c s' => String c (replace pat rep s')
       end.

Fixpoint replaceAll_from (pat rep : string) (skip : nat) (s : string) : string :=
  match s with
  | "" => ""
  | String c s' =>
      match skip with
      | S k => replaceAll_from pat rep k s'
      | O =>
          if String.prefix pat s
          then rep +:+ replaceAll_from pat rep (String.length pat - 1) s'
          else String c (replaceAll_from pat rep 0 s')
      end
  end.

Fixpoint intersperse (rep s : string) : string :=
  match s with
  | "" => rep
  | String c s' => rep +:+ String c (intersperse rep s')
  end.

(** [s.replaceAll(pat, rep)] for a string [pat]: every occurrence, left to
    right, without overlap; an empty [pat] matches between code units. *)
Definition replaceAll (pat rep s : string) : string :=
  match pat with
  | "" => intersperse rep s
  | _ => replaceAll_from pat rep 0 s
  end.

(** [x || d] for [x] a string or [null]: [null] and the empty string are
    falsy. *)
Definition or_else (x : option string) (d : string) : string :=
  match x with
  | Some (String c s) => String c s
  | _ => d
  end.

End JsString.

Import JsString.

(** ** Conversation state *)

(** The values [userState.step] takes. *)
Inductive Step :=
  START | MENU | ASK_CONFIG | ASK_BUDGET | ASK_REASON | LEAD_CAPTURE | DONE.

Global Instance Step_eq_dec : EqDecision Step.
Proof. solve_decision. Defined.

(** The object stored per user; [None] is [null]. *)
Record UserState := {
  step : Step;
  config : option string;
  budget : option string;
  reason : option string;
}.

Definition set_step (v : Step) (u : UserState) : UserState :=
  {| step := v; config := config u; budget := budget u; reason := reason u |}.
Definition set_config (v : string) (u : UserState) : UserState :=
  {| step := step u; config := Some v; budget := budget u; reason := reason u |}.
Definition set_budget (v : string) (u : UserState) : UserState :=
  {| step := step u; config := config u; budget := Some v; reason := reason u |}.
Definition set_reason (v : string) (u : UserState) : UserState :=
  {| step := step u; config := config u; budget := budget u; reason := Some v |}.

(** Default state when new user interacts. *)
Definition new_user : UserState :=
  {| step := START; config := None; budget := None; reason := None |}.

(** ** Outbound payloads *)

(** [{ id, title }]: a row of a list, or the [reply] of a button. *)
Record Choice := { id_ : string; title : string }.

Inductive Interactive_out :=
  | button (body_text : string) (buttons : list Choice)
  | list_ (body_text : string) (action_button : string)
          (section_title : string) (rows : list Choice).

Inductive Content_out :=
  | text_out (body : string)
  | interactive_out (i : Interactive_out).

Record Payload := {
  messaging_product : string;
  to : string;
  content : Content_out;
}.

(** ** Inbound requests *)

(** A value found where the handler expects a string: a string, or a
    value that is not one, told apart by what [||] and [if] make of it.
    [falsy]: the property is missing ([undefined]), or holds [null],
    [false] or [0].  [truthy]: it holds [true], another number, an array
    or an object. *)
Inductive Js :=
  | str (s : string)
  | falsy
  | truthy.

(** [message.interactive] by its [type]: a button reply or a list reply
    with the member of that name, or anything else.  The member is [None]
    when it is missing or [null], so that reading its [id] raises;
    otherwise it is given by its [id]. *)
Inductive Interactive_in :=
  | button_reply (member : option Js)
  | list_reply (member : option Js)
  | other_reply.

(** [message.type] with what the handler reads under it: for [text],
    [message.text?.body]; for [interactive], [message.interactive], [None]
    when it is missing or [null]; nothing for any other type. *)
Inductive Content_in :=
  | text (body : Js)
  | interactive (i : option Interactive_in)
  | other_type.

Record Message := { from : string; msg : Content_in }.
Record Value := { messages : option (list Message) }.
Record Change := { value : option Value }.
Record Entry := { changes : option (list Change) }.
Record Body := { entry : option (list Entry) }.

(** What the handler answers: [res.status(c).send(b)], and
    [res.sendStatus(c)], which sends the name of the status as the body
    (the handlers use 200 and 403). *)
Record Response := { status : nat; body : option string }.

Definition sendStatus (c : nat) : Response :=
  {| status := c;
     body := Some (match c with 200 => "OK" | 403 => "Forbidden" | _ => "" end) |}.

(** ** Effects: the store, the calls to the outside service, exceptions *)

Inductive Exn :=
  | TypeError
  | SendError (p : Payload).

(** The [Map], and the calls of [sendMessage] made so far in the delivery,
    each with its outcome. *)
Record World := {
  state : gmap string UserState;
  sent : list (Payload * bool);
}.

(** A computation of the handler: it ends with a value or with an exception
    raised, and leaves a world. *)

Definition M (A : Type) : Type := World -> (Exn + A) * World.

Global Instance M_ret : MRet M := fun A a w => (inr a, w).

Global Instance M_bind : MBind M := fun A B k m w =>
  match m w with
  | (inl e, w') => (inl e, w')
  | (inr a, w') => k a w'
  end.

Definition throw {A} (e : Exn) : M A := fun w => (inl e, w).

(** [const state = new Map()] *)
Definition state0 : gmap string UserState := ∅.

(** [getUserState(waId)]: the result is the object stored under [waId]; it
    is referred to by its key. *)
Definition getUserState (waId : string) : M string :=
  fun w =>
    let st := match state w !! waId with
              | None => <[waId := new_user]> (state w)
              | Some _ => state w
              end in
    (inr waId, {| state := st; sent := sent w |}).

(** Reading a field of the object [userState]. *)
Definition read (userState : string) : M UserState :=
  fun w => match state w !! userState with
           | Some u => (inr u, w)
           | None => (inl TypeError, w)
           end.

(** Assigning a field of the object [userState]. *)
Definition assign (userState : string) (f : UserState -> UserState) : M unit :=
  fun w => (inr tt, {| state := alter f userState (state w); sent := sent w |}).

(** ** Sending *)

Section Handlers.

(** The outcome of the k-th call of [sendMessage] in one delivery. *)
Variable net : nat -> bool.

(** [sendMessage(payload)]: [axios.post] either resolves or rejects; the
    rejection is raised by [await]. *)
Definition sendMessage (payload : Payload) : M unit :=
  fun w =>
    let ok := net (length (sent w)) in
    let w' := {| state := state w; sent := sent w ++ [(payload, ok)] |} in
    if ok then (inr tt, w') else (inl (SendError payload), w').

Definition welcome (to : string) : Payload :=
  {| messaging_product := "whatsapp";
     to := to;
     content := interactive_out (button
       ("👋 Hi! Welcome to *Nivaara Realty* 🏡" +:+ LF +:+ LF +:+
        "We simplify your real estate journey across Pune and beyond." +:+ LF +:+
        "Please choose an option below to get started ⬇️")
       [ {| id_ := "BTN_SEARCH"; title := "Search Property" |};
         {| id_ := "BTN_WHY"; title := "Why Nivaara?" |};
         {| id_ := "BTN_EXPERT"; title := "Talk to Expert" |} ]) |}.

Definition sendWelcome (to : string) : M unit := sendMessage (welcome to).

Definition configList (to : string) : Payload :=
  {| messaging_product := "whatsapp";
     to := to;
     content := interactive_out (list_
       "🏠 Select configuration" "Choose" "Configuration"
       [ {| id_ := "CFG_1BHK"; title := "1 BHK" |};
         {| id_ := "CFG_2BHK"; title := "2 BHK" |};
         {| id_ := "CFG_3BHK"; title := "3 BHK" |};
         {| id_ := "CFG_4PLUS"; title := "4+ BHK" |} ]) |}.

Definition sendConfigList (to : string) : M unit := sendMessage (configList to).

Definition budgetList (to : string) : Payload :=
  {| messaging_product := "whatsapp";
     to := to;
     content := interactive_out (list_
       "💰 Choose your price range" "Select" "Price Range"
       [ {| id_ := "BUD_BELOW_50"; title := "Below ₹50L" |};
         {| id_ := "BUD_50_75"; title := "₹50–75L" |};
         {| id_ := "BUD_75_1CR"; title := "₹75L–1Cr" |};
         {| id_ := "BUD_1CR_PLUS"; title := "₹1Cr+" |} ]) |}.

Definition sendBudgetList (to : string) : M unit := sendMessage (budgetList to).

Definition reasonButtons (to : string) : Payload :=
  {| messaging_product := "whatsapp";
     to := to;
     content := interactive_out (button
       "Almost done! Why are you looking to buy?"
       [ {| id_ := "RSN_SELF"; title := "Self Use" |};
         {| id_ := "RSN_INVEST"; title := "Investment" |} ]) |}.

Definition sendReasonButtons (to : string) : M unit := sendMessage (reasonButtons to).

Definition text_message (to body : string) : Payload :=
  {| messaging_product := "whatsapp"; to := to; content := text_out body |}.

Definition link : string := "https://nivaararealty.com/".

Definition summary (userState : UserState) : string :=
  "✅ Great! Here’s what you selected:" +:+ LF +:+
  "• Configuration: " +:+ or_else (config userState) "-" +:+ LF +:+
  "• Budget: " +:+ or_else (budget userState) "-" +:+ LF +:+
  "• Purpose: " +:+ or_else (reason userState) "-" +:+ LF +:+ LF.

Definition final (to : string) (userState : UserState) : Payload :=
  text_message to
    (summary userState +:+
     "👉 Browse matching properties here: " +:+ link +:+ LF +:+
     "Or type *CALLBACK* to connect with our expert.").

(** [sendFinal(to, userState)]: the fields of [userState] are read when
    the summary is composed. *)
Definition sendFinal (to : string) (userState : string) : M unit :=
  u ← read userState;
  sendMessage (final to u);;
  sendWelcome to.

Definition whyNivaara (to : string) : Payload :=
  text_message to
    ("✅ *Why choose Nivaara?*" +:+ LF +:+
     "• Comprehensive real estate consultancy across residential, commercial, land and investment deals." +:+ LF +:+
     "• Operates pan‑India and internationally, with a base in Pune and deep market expertise【222220955652304†L43-L47】." +:+ LF +:+
     "• End‑to‑end service: from search to paperwork, we manage everything【222220955652304†L94-L110】." +:+ LF +:+
     "• Trust & transparency with verified properties and honest guidance【222220955652304†L94-L110】." +:+ LF +:+
     LF +:+ "Tap *Search Property* to explore listings or *Talk to Expert* for personalised advice.").

Definition sendWhyNivaara (to : string) : M unit :=
  sendMessage (whyNivaara to);;
  sendWelcome to.

Definition callbackPrompt (to : string) : Payload :=
  text_message to
    "📞 Please share your *Name + Preferred Area + Budget* and our advisor will call you shortly.".

Definition expertPrompt (to : string) : Payload :=
  text_message to
    "📞 Sure — please share your *Name + Preferred Area + Budget* and we’ll call you.".

Definition fallbackPrompt (to : string) : Payload :=
  text_message to
    "Type *HI* to start over, or *CALLBACK* for an expert call.".

(** ** [app.get("/webhook")] *)

Record Query := {
  hub_mode : option string;
  hub_verify_token : option string;
  hub_challenge : option string;
}.

Definition get_webhook (VERIFY_TOKEN : string) (query : Query) : M Response :=
  let mode := hub_mode query in
  let token := hub_verify_token query in
  let challenge := hub_challenge query in
  if bool_decide (mode = Some "subscribe") && bool_decide (token = Some VERIFY_TOKEN)
  then mret {| status := 200; body := challenge |}
  else mret (sendStatus 403).

(** ** [app.post("/webhook")] *)

(** [value?.messages?.[0]] at the end of the chain from [req.body]. *)
Definition first_message (b : Body) : option Message :=
  let entry0 : option Entry := l ← entry b; head l in
  let changes0 : option Change := e ← entry0; l ← changes e; head l in
  let value0 : option Value := c ← changes0; value c in
  v ← value0; l ← messages v; head l.

(** A value as the [switch] sees it: only a string can match a [case]. *)
Definition as_string (v : Js) : option string :=
  match v with
  | str s => Some s
  | _ => None
  end.

(** Lines 313-321: [incomingId], [null] unless the message is an
    interactive reply of one of the two kinds.  [interactive.type] raises
    when [message.interactive] is missing, and so does
    [interactive.button_reply.id] when the member is. *)
Definition read_incomingId (message : Message) : M (option string) :=
  match msg message with
  | interactive None => throw TypeError
  | interactive (Some (button_reply None)) => throw TypeError
  | interactive (Some (button_reply (Some id))) => mret (as_string id)
  | interactive (Some (list_reply None)) => throw TypeError
  | interactive (Some (list_reply (Some id))) => mret (as_string id)
  | interactive (Some other_reply) => mret None
  | _ => mret None
  end.

(** Line 323: [text].  A body that is not a string and is truthy has no
    [trim], and calling it raises. *)
Definition read_text (message : Message) : M string :=
  match msg message with
  | text (str s) => mret (trim (or_else (Some s) ""))
  | text falsy => mret (trim (or_else None ""))
  | text truthy => throw TypeError
  | _ => mret ""
  end.

(** The [switch (incomingId)] of the handler. *)
Definition route (from : string) (userState : string) (incomingId : option string) : M unit :=
  let default := sendMessage (fallbackPrompt from) in
  match incomingId with
  | None => default
  | Some id =>
      if (id =? "BTN_SEARCH")%string then
        assign userState (set_step ASK_CONFIG);;
        sendConfigList from
      else if (id =? "BTN_WHY")%string then
        sendWhyNivaara from
      else if (id =? "BTN_EXPERT")%string then
        assign userState (set_step LEAD_CAPTURE);;
        sendMessage (expertPrompt from)
      else if ((id =? "CFG_1BHK") || (id =? "CFG_2BHK") ||
               (id =? "CFG_3BHK") || (id =? "CFG_4PLUS"))%string then
        assign userState (set_config (replace "CFG_" "" id));;
        assign userState (set_step ASK_BUDGET);;
        sendBudgetList from
      else if ((id =? "BUD_BELOW_50") || (id =? "BUD_50_75") ||
               (id =? "BUD_75_1CR") || (id =? "BUD_1CR_PLUS"))%string then
        assign userState (set_budget (replaceAll "_" " " (replace "BUD_" "" id)));;
        assign userState (set_step ASK_REASON);;
        sendReasonButtons from
      else if ((id =? "RSN_SELF") || (id =? "RSN_INVEST"))%string then
        assign userState
          (set_reason (if (id =? "RSN_SELF")%string then "Self Use" else "Investment"));;
        assign userState (set_step DONE);;
        sendFinal from userState
      else default
  end.

(** The body of the [try] block; [None] is a request without a parsed
    body, on which [req.body.entry] raises. *)
Definition handle (req_body : option Body) : M Response :=
  match req_body with
  | None => throw TypeError
  | Some b =>
      match first_message b with
      | None => mret (sendStatus 200)
      | Some message =>
          let from := from message in
          userState ← getUserState from;
          incomingId ← read_incomingId message;
          text ← read_text message;
          u ← read userState;
          if test_hi_hello text || bool_decide (step u = START) then
            assign userState (set_step MENU);;
            sendWelcome from;;
            mret (sendStatus 200)
          else if test_callback text then
            sendMessage (callbackPrompt from);;
            assign userState (set_step LEAD_CAPTURE);;
            mret (sendStatus 200)
          else
            route from userState incomingId;;
            mret (sendStatus 200)
      end
  end.

(** One delivery: the response, the world it leaves, what [console.error]
    printed. *)
Record Outcome := {
  response : Response;
  world : World;
  logged : list Exn;
}.

Definition post_webhook (req_body : option Body) (st : gmap string UserState) : Outcome :=
  match handle req_body {| state := st; sent := [] |} with
  | (inr res, w) => {| response := res; world := w; logged := [] |}
  | (inl err, w) => {| response := sendStatus 200; world := w; logged := [err] |}
  end.

(** ** [app.use(express.json())] before [app.post("/webhook")]

    A POST with a JSON content type goes through the body parser, with
    its default options, before the handler.  The parser reads the body
    up to its limit of 100kb and answers 413 when the body is longer; it
    then parses it, and answers 400 when the text is not that of a JSON
    object or array.  In both cases Express answers and the handler is
    not called.  A request is given by the length of its body in bytes
    and by what the parser makes of it. *)
Record Request := {
  content_length : N;
  json : option Body;
}.

(** ['100kb'] *)
Definition limit : N := 102400.

Inductive Answer :=
  | refused (status : nat)
  | handled (o : Outcome).

Definition app_post (r : Request) (st : gmap string UserState) : Answer :=
  if (limit <? content_length r)%N then refused 413
  else match json r with
       | None => refused 400
       | Some b => handled (post_webhook (Some b) st)
       end.

End Handlers.

(** ** Vocabulary of the properties *)

(** The identifier of a reply that carries one as a string. *)
Definition incoming_id (message : Message) : option string :=
  match msg message with
  | interactive (Some (button_reply (Some (str id)))) => Some id
  | interactive (Some (list_reply (Some (str id)))) => Some id
  | _ => None
  end.

(** The trimmed text of a text message whose body is a string; the empty
    string for any other message. *)
Definition incoming_text (message : Message) : string :=
  match msg message with
  | text (str s) => trim s
  | _ => ""
  end.

(** The messages on which lines 313-323 raise nothing: an interactive
    message has its [interactive] object and, when that is a button or a
    list reply, the member of that name; the body of a text message is a
    string or is falsy. *)
Definition readable (message : Message) : bool :=
  match msg message with
  | interactive None => false
  | interactive (Some (button_reply None)) => false
  | interactive (Some (list_reply None)) => false
  | text truthy => false
  | _ => true
  end.

(** The state [getUserState(waId)] hands out on the store [st]: the stored
    one, or the default one it has just stored. *)
Definition current (st : gmap string UserState) (waId : string) : UserState :=
  default new_user (st !! waId).

(** Equality of strings that ignores the case of the letters [a]..[z]:
    both sides are compared in lower case. *)
Definition lower_ascii (c : ascii) : ascii :=
  let n := nat_of_ascii c in
  if ((65 <=? n)%nat && (n <=? 90)%nat)%bool then ascii_of_nat (n + 32) else c.

Fixpoint lower (s : string) : string :=
  match s with
  | "" => ""
  | String c s' => String (lower_ascii c) (lower s')
  end.

(** The identifiers the [switch] has a [case] for. *)
Definition config_ids : list string := ["CFG_1BHK"; "CFG_2BHK"; "CFG_3BHK"; "CFG_4PLUS"].
Definition budget_ids : list string := ["BUD_BELOW_50"; "BUD_50_75"; "BUD_75_1CR"; "BUD_1CR_PLUS"].
Definition reason_ids : list string := ["RSN_SELF"; "RSN_INVEST"].
Definition recognized_ids : list string :=
  ["BTN_SEARCH"; "BTN_WHY"; "BTN_EXPERT"] ++ config_ids ++ budget_ids ++ reason_ids.

(** The values of the three optional fields. *)
Definition config_values : list string := ["1BHK"; "2BHK"; "3BHK"; "4PLUS"].
Definition budget_values : list string := ["BELOW 50"; "50 75"; "75 1CR"; "1CR PLUS"].
Definition reason_values : list string := ["Self Use"; "Investment"].

Definition holds_null_or (values : list string) (field : option string) : Prop :=
  match field with
  | None => True
  | Some v => v ∈ values
  end.

Definition valid_user (u : UserState) : Prop :=
  holds_null_or config_values (config u) ∧
  holds_null_or budget_values (budget u) ∧
  holds_null_or reason_values (reason u).

Definition valid_store (st : gmap string UserState) : Prop :=
  ∀ waId u, st !! waId = Some u → valid_user u.

(** A field that is set stays set. *)
Definition keeps_filled (u u' : UserState) : Prop :=
  (is_Some (config u) → is_Some (config u')) ∧
  (is_Some (budget u) → is_Some (budget u')) ∧
  (is_Some (reason u) → is_Some (reason u')).

(** A request body that carries the one message [m]. *)
Definition body_of (m : Message) : Body :=
  {| entry := Some [ {| changes := Some [ {| value := Some {| messages := Some [m] |} |} ] |} ] |}.

(** Messages of the three kinds the flow uses. *)
Definition typed (waId body : string) : Message :=
  {| from := waId; msg := text (str body) |}.
Definition pressed (waId id : string) : Message :=
  {| from := waId; msg := interactive (Some (button_reply (Some (str id)))) |}.
Definition picked (waId id : string) : Message :=
  {| from := waId; msg := interactive (Some (list_reply (Some (str id)))) |}.

(** An outside service that accepts every call, and one that rejects
    every call. *)
Definition accepting : nat -> bool := fun _ => true.
Definition rejecting : nat -> bool := fun _ => false.

(** Deliveries handled one after the other, each with the behaviour of the
    outside service during it. *)
Definition deliver (st : gmap string UserState) (ev : (nat -> bool) * option Body)
  : gmap string UserState :=
  state (world (post_webhook ev.1 ev.2 st)).

Definition run (evs : list ((nat -> bool) * option Body)) (st : gmap string UserState)
  : gmap string UserState :=
  foldl deliver st evs.

(** The conversation of the example: greeting, search, 2 BHK, 50 to 75
    lakh, investment. *)
Definition conversation : list ((nat -> bool) * option Body) :=
  map (λ m, (accepting, Some (body_of m)))
    [ typed "111" "hi";
      pressed "111" "BTN_SEARCH";
      picked "111" "CFG_2BHK";
      picked "111" "BUD_50_75";
      pressed "111" "RSN_INVEST" ].

(** The payloads handed to [sendMessage] during a sequence of deliveries,
    in order. *)
Fixpoint transcript (evs : list ((nat -> bool) * option Body)) (st : gmap string UserState)
  : list Payload :=
  match evs with
  | [] => []
  | ev :: evs' =>
      let o := post_webhook ev.1 ev.2 st in
      map fst (sent (world o)) ++ transcript evs' (state (world o))
  end.

(** The record of the calls [sendMessage p1; sendMessage p2; ...], the
    first of them being call number [k] of the delivery, with what
    [console.error] prints: the run stops at the first rejected call. *)
Fixpoint send_all (net : nat -> bool) (k : nat) (ps : list Payload)
  : list (Payload * bool) * list Exn :=
  match ps with
  | [] => ([], [])
  | p :: ps' =>
      if net k
      then let r := send_all net (S k) ps' in ((p, true) :: r.1, r.2)
      else ([(p, false)], [SendError p])
  end.

(** The options a prompt offers: the [reply] of each button, the rows of
    the section of a list; a text offers none. *)
Definition choices_of (p : Payload) : list Choice :=
  match content p with
  | text_out _ => []
  | interactive_out (button _ buttons) => buttons
  | interactive_out (list_ _ _ _ rows) => rows
  end.

(** The identifiers offered by the four prompts the handler sends. *)
Definition offered_ids (to : string) : list string :=
  map id_ (choices_of (welcome to) ++ choices_of (configList to) ++
           choices_of (budgetList to) ++ choices_of (reasonButtons to)).

(** ** Start of the process *)

Module Startup.







End Startup.

(** ** The string operations on the inputs of the source *)

Example trim_examples :
  trim ("  Hi" +:+ LF) = "Hi" ∧
  trim (chr 194 +:+ chr 160 +:+ "a b" +:+ utf8_3 227 128 128 +:+ " ") = "a b" ∧
  trim "" = "" ∧ trim "   " = "".
Proof. repeat split; reflexivity. Qed.

Example test_examples :
  test_hi_hello "HeLLo" = true ∧ test_hi_hello "hi " = false ∧
  test_hi_hello "" = false ∧ test_callback "CallBack" = true.
Proof. repeat split; reflexivity. Qed.

Example replace_examples :
  map (replace "CFG_" "") config_ids = config_values ∧
  map (fun id => replaceAll "_" " " (replace "BUD_" "" id)) budget_ids = budget_values ∧
  replaceAll "" "x" "ab" = "xaxbx" ∧ replaceAll "aa" "b" "aaaaa" = "bba".
Proof. repeat split; reflexivity. Qed.

(** The conversation of the example, prompt by prompt. *)
Example conversation_transcript :
  transcript conversation state0 =
  [ welcome "111"; configList "111"; budgetList "111"; reasonButtons "111";
    final "111" {| step := DONE; config := Some "2BHK"; budget := Some "50 75";
                   reason := Some "Investment" |};
    welcome "111" ] ∧
  run conversation state0 =
  {[ "111" := {| step := DONE; config := Some "2BHK"; budget := Some "50 75";
                 reason := Some "Investment" |} ]}.
Proof. split; vm_compute; reflexivity. Qed.

(** A greeting in capitals from a user who has finished: the menu again,
    the selections kept. *)
Example greeting_after_DONE :
  let o := post_webhook accepting (Some (body_of (typed "111" " HELLO ")))
             (run conversation state0) in
  sent (world o) = [(welcome "111", true)] ∧
  state (world o) !! "111" =
    Some {| step := MENU; config := Some "2BHK"; budget := Some "50 75";
            reason := Some "Investment" |}.
Proof. split; vm_compute; reflexivity. Qed.

(** A status notification carries no message; a request without a parsed
    body raises on [req.body.entry]. *)
Example no_message_examples :
  first_message {| entry := Some [ {| changes := Some [ {| value := Some {| messages := None |} |} ] |} ] |} = None ∧
  first_message {| entry := None |} = None ∧
  first_message {| entry := Some [ {| changes := Some [] |} ] |} = None ∧
  logged (post_webhook accepting None state0) = [TypeError].
Proof. repeat split. Qed.

Lemma lower_canonicalize c : lower_ascii (canonicalize c) = lower_ascii c.
Proof. destruct c as [[] [] [] [] [] [] [] []]; reflexivity. Qed.

Lemma canonicalize_lower c : canonicalize (lower_ascii c) = canonicalize c.
Proof. destruct c as [[] [] [] [] [] [] [] []]; reflexivity. Qed.

(** The test [/^lit$/i] is equality ignoring case. *)
Lemma test_literal_i_lower lit s :
  test_literal_i lit s = true ↔ lower s = lower lit.
Proof.
  revert s; induction lit as [|a lit IH]; intros [|b s]; simpl; try (split; congruence).
  rewrite andb_true_iff, IH, Ascii.eqb_eq. split.
  - intros [Hc ->]. f_equal.
    rewrite <- (lower_canonicalize b), <- (lower_canonicalize a). congruence.
  - intros [= Hc ->]. split; [|done].
    rewrite <- (canonicalize_lower a), <- (canonicalize_lower b). congruence.
Qed.

Lemma test_hi_hello_lower s :
  test_hi_hello s = true ↔ lower s = "hi" ∨ lower s = "hello".
Proof.
  unfold test_hi_hello. rewrite orb_true_iff, !test_literal_i_lower. reflexivity.
Qed.

Lemma test_callback_lower s :
  test_callback s = true ↔ lower s = "callback".
Proof. unfold test_callback. rewrite test_literal_i_lower. reflexivity. Qed.

(** ** Running the handler *)

Lemma bind_run {A B} (m : M A) (k : A → M B) w :
  (m ≫= k) w = match m w with
               | (inl e, w') => (inl e, w')
               | (inr a, w') => k a w'
               end.
Proof. reflexivity. Qed.

Lemma getUserState_run waId st snt :
  getUserState waId {| state := st; sent := snt |} =
  (inr waId, {| state := <[waId := current st waId]> st; sent := snt |}).
Proof.
  unfold getUserState, current; simpl.
  destruct (st !! waId) as [u|] eqn:E; simpl; [|done].
  by rewrite insert_id.
Qed.

Lemma read_run waId u st snt :
  read waId {| state := <[waId := u]> st; sent := snt |} =
  (inr u, {| state := <[waId := u]> st; sent := snt |}).
Proof. unfold read; simpl. by rewrite lookup_insert_eq. Qed.

Lemma assign_run waId f u st snt :
  assign waId f {| state := <[waId := u]> st; sent := snt |} =
  (inr tt, {| state := <[waId := f u]> st; sent := snt |}).
Proof.
  unfold assign; simpl. do 2 f_equal.
  apply map_eq; intros k. rewrite lookup_alter.
  case_decide as Hk.
  - subst k. by rewrite !lookup_insert_eq.
  - by rewrite !lookup_insert_ne.
Qed.

Lemma sendMessage_run net p st snt :
  sendMessage net p {| state := st; sent := snt |} =
  (if net (length snt) then inr tt else inl (SendError p),
   {| state := st; sent := snt ++ [(p, net (length snt))] |}).
Proof. unfold sendMessage; simpl. by destruct (net (length snt)). Qed.

Lemma mret_run {A} (a : A) w : (mret a : M A) w = (inr a, w).
Proof. reflexivity. Qed.

Local Arguments getUserState : simpl never.
Local Arguments read : simpl never.
Local Arguments assign : simpl never.
Local Arguments sendMessage : simpl never.
Local Arguments route : simpl never.
Local Arguments mbind : simpl never.
Local Arguments mret : simpl never.

Lemma read_incomingId_run m w :
  readable m = true → read_incomingId m w = (inr (incoming_id m), w).
Proof.
  unfold readable, read_incomingId, incoming_id.
  destruct (msg m) as [[s| |]|[[[[s| |]|]|[[s| |]|]|]|]|];
    first [discriminate | reflexivity].
Qed.

Lemma read_text_run m w :
  readable m = true → read_text m w = (inr (incoming_text m), w).
Proof.
  unfold readable, read_text, incoming_text.
  destruct (msg m) as [[[|c s]| |]|[[[[s| |]|]|[[s| |]|]|]|]|];
    first [discriminate | reflexivity].
Qed.

(** On a message that is not readable one of the two reads raises, and
    the other one, when it comes first, returns. *)
Lemma reads_raise m w :
  readable m = false →
  (read_incomingId m ≫= λ incomingId, read_text m ≫= λ text, mret (incomingId, text)) w
  = (inl TypeError, w).
Proof.
  unfold readable, read_incomingId, read_text.
  destruct (msg m) as [[s| |]|[[[[s| |]|]|[[s| |]|]|]|]|];
    first [discriminate | reflexivity].
Qed.

Local Arguments read_incomingId : simpl never.
Local Arguments read_text : simpl never.

Ltac run_step :=
  first [ rewrite bind_run
        | rewrite getUserState_run
        | rewrite read_incomingId_run by assumption
        | rewrite read_text_run by assumption
        | rewrite read_run
        | rewrite assign_run
        | rewrite sendMessage_run
        | rewrite mret_run ]; cbv beta iota; cbn [length app].

Ltac run_handler := repeat run_step.

Section OneMessage.

Variable net : nat -> bool.
Variables (b : Body) (m : Message) (st : gmap string UserState).
Hypothesis Hm : first_message b = Some m.
Hypothesis Hr : readable m = true.

Let u := from m.
Let cur := current st u.
Let w0 := {| state := st; sent := [] |}.

(** Rule 1: the greeting, or a user at [START]. *)
Lemma handle_rule1 :
  test_hi_hello (incoming_text m) || bool_decide (step cur = START) = true →
  handle net (Some b) w0 =
  (if net 0 then inr (sendStatus 200) else inl (SendError (welcome u)),
   {| state := <[u := set_step MENU cur]> st; sent := [(welcome u, net 0)] |}).
Proof.
  intros H. unfold handle, w0. rewrite Hm. run_handler.
  fold u cur. rewrite H. unfold sendWelcome. run_handler.
  by destruct (net 0).
Qed.

(** Rule 2: the callback command. *)
Lemma handle_rule2 :
  test_hi_hello (incoming_text m) || bool_decide (step cur = START) = false →
  test_callback (incoming_text m) = true →
  handle net (Some b) w0 =
  if net 0
  then (inr (sendStatus 200),
        {| state := <[u := set_step LEAD_CAPTURE cur]> st;
           sent := [(callbackPrompt u, true)] |})
  else (inl (SendError (callbackPrompt u)),
        {| state := <[u := cur]> st; sent := [(callbackPrompt u, false)] |}).
Proof.
  intros H1 H2. unfold handle, w0. rewrite Hm. run_handler.
  fold u cur. rewrite H1, H2. run_handler.
  destruct (net 0); run_handler; done.
Qed.

(** Rule 3: the [switch]. *)
Lemma handle_rule3 :
  test_hi_hello (incoming_text m) || bool_decide (step cur = START) = false →
  test_callback (incoming_text m) = false →
  handle net (Some b) w0 =
  match route net u u (incoming_id m) {| state := <[u := cur]> st; sent := [] |} with
  | (inl e, w) => (inl e, w)
  | (inr _, w) => (inr (sendStatus 200), w)
  end.
Proof.
  intros H1 H2. unfold handle, w0. rewrite Hm. run_handler.
  fold u cur. rewrite H1, H2. run_handler. done.
Qed.

End OneMessage.

(** A message that is not readable: the state of the sender has been
    handed out, and stored if it was new, when the read raises; nothing is
    sent. *)
Lemma handle_unreadable net b m st :
  first_message b = Some m →
  readable m = false →
  handle net (Some b) {| state := st; sent := [] |} =
  (inl TypeError,
   {| state := <[from m := current st (from m)]> st; sent := [] |}).
Proof.
  intros Hm Hr. unfold handle. rewrite Hm. rewrite bind_run, getUserState_run.
  cbv beta iota.
  pose proof (reads_raise m {| state := <[from m := current st (from m)]> st; sent := [] |} Hr)
    as Hraise.
  rewrite !bind_run in Hraise. rewrite bind_run.
  destruct (read_incomingId m _) as [[e|i] w] eqn:E1; [congruence|].
  rewrite bind_run. rewrite bind_run in Hraise.
  destruct (read_text m w) as [[e|t] w'] eqn:E2; [congruence|].
  discriminate Hraise.
Qed.


(** ** The branches of the [switch] *)

Ltac eval_eqb :=
  repeat match goal with
         | |- context [String.eqb ?a ?b] =>
             let v := eval vm_compute in (String.eqb a b) in
             change (String.eqb a b) with v
         end;
  cbv beta iota; cbn [orb].

Ltac in_list :=
  repeat first [ apply list_elem_of_here | apply list_elem_of_further ].

Ltac each_of H :=
  repeat (apply elem_of_cons in H as [->|H]); [..|by apply elem_of_nil in H].

Section Switch.

Variable net : nat -> bool.
Variables (u : string) (cur : UserState) (st : gmap string UserState).

Let w1 := {| state := <[u := cur]> st; sent := [] |}.

Lemma route_search :
  route net u u (Some "BTN_SEARCH") w1 =
  (if net 0 then inr tt else inl (SendError (configList u)),
   {| state := <[u := set_step ASK_CONFIG cur]> st; sent := [(configList u, net 0)] |}).
Proof. unfold route, w1, sendConfigList. eval_eqb. run_handler. done. Qed.

Lemma route_why :
  route net u u (Some "BTN_WHY") w1 =
  if net 0
  then (if net 1 then inr tt else inl (SendError (welcome u)),
        {| state := <[u := cur]> st;
           sent := [(whyNivaara u, true); (welcome u, net 1)] |})
  else (inl (SendError (whyNivaara u)),
        {| state := <[u := cur]> st; sent := [(whyNivaara u, false)] |}).
Proof.
  unfold route, w1, sendWhyNivaara, sendWelcome. eval_eqb. run_handler.
  destruct (net 0); run_handler; done.
Qed.

Lemma route_expert :
  route net u u (Some "BTN_EXPERT") w1 =
  (if net 0 then inr tt else inl (SendError (expertPrompt u)),
   {| state := <[u := set_step LEAD_CAPTURE cur]> st; sent := [(expertPrompt u, net 0)] |}).
Proof. unfold route, w1. eval_eqb. run_handler. done. Qed.

Lemma route_config id :
  id ∈ config_ids →
  route net u u (Some id) w1 =
  (if net 0 then inr tt else inl (SendError (budgetList u)),
   {| state := <[u := set_step ASK_BUDGET (set_config (replace "CFG_" "" id) cur)]> st;
      sent := [(budgetList u, net 0)] |}).
Proof.
  intros H. unfold config_ids in H.
  each_of H; unfold route, w1, sendBudgetList; eval_eqb; run_handler; done.
Qed.

Lemma route_budget id :
  id ∈ budget_ids →
  route net u u (Some id) w1 =
  (if net 0 then inr tt else inl (SendError (reasonButtons u)),
   {| state := <[u := set_step ASK_REASON
                        (set_budget (replaceAll "_" " " (replace "BUD_" "" id)) cur)]> st;
      sent := [(reasonButtons u, net 0)] |}).
Proof.
  intros H. unfold budget_ids in H.
  each_of H; unfold route, w1, sendReasonButtons; eval_eqb; run_handler; done.
Qed.

Lemma route_reason id :
  id ∈ reason_ids →
  let u' := set_step DONE
              (set_reason (if (id =? "RSN_SELF")%string then "Self Use" else "Investment") cur) in
  route net u u (Some id) w1 =
  if net 0
  then (if net 1 then inr tt else inl (SendError (welcome u)),
        {| state := <[u := u']> st;
           sent := [(final u u', true); (welcome u, net 1)] |})
  else (inl (SendError (final u u')),
        {| state := <[u := u']> st; sent := [(final u u', false)] |}).
Proof.
  intros H. unfold reason_ids in H.
  each_of H; unfold route, w1, sendFinal, sendWelcome; eval_eqb; run_handler;
    destruct (net 0); run_handler; done.
Qed.

Lemma route_default incomingId :
  (∀ id, incomingId = Some id → id ∉ recognized_ids) →
  route net u u incomingId w1 =
  (if net 0 then inr tt else inl (SendError (fallbackPrompt u)),
   {| state := <[u := cur]> st; sent := [(fallbackPrompt u, net 0)] |}).
Proof.
  intros H. unfold route, w1. destruct incomingId as [id|]; [|run_handler; done].
  specialize (H id eq_refl).
  repeat match goal with
         | |- context [String.eqb id ?lit] =>
             replace (String.eqb id lit) with false
               by (symmetry; apply String.eqb_neq; intros ->; apply H;
                   unfold recognized_ids, config_ids, budget_ids, reason_ids;
                   set_solver)
         end.
  cbv beta iota; cbn [orb]. run_handler. done.
Qed.

End Switch.

(** ** One delivery *)

Lemma first_message_body_of m : first_message (body_of m) = Some m.
Proof. reflexivity. Qed.

Lemma incoming_id_text m id : incoming_id m = Some id → incoming_text m = "".
Proof. unfold incoming_id, incoming_text. by destruct (msg m). Qed.

Lemma incoming_id_readable m id : incoming_id m = Some id → readable m = true.
Proof.
  unfold incoming_id, readable.
  destruct (msg m) as [[s| |]|[[[[s| |]|]|[[s| |]|]|]|]|]; done.
Qed.

Lemma text_readable m body : msg m = text (str body) → readable m = true.
Proof. unfold readable. by intros ->. Qed.

Lemma text_incoming m body : msg m = text (str body) → incoming_text m = trim body.
Proof. unfold incoming_text. by intros ->. Qed.

Lemma current_not_START st waId :
  step (current st waId) ≠ START → st !! waId = Some (current st waId).
Proof. unfold current. by destruct (st !! waId). Qed.

Lemma insert_current st waId :
  step (current st waId) ≠ START → <[waId := current st waId]> st = st.
Proof. intros H. by apply insert_id, current_not_START. Qed.

Lemma rule1_applies text cur :
  test_hi_hello text || bool_decide (step cur = START) = true ↔
  lower text = "hi" ∨ lower text = "hello" ∨ step cur = START.
Proof.
  rewrite orb_true_iff, test_hi_hello_lower, bool_decide_eq_true. tauto.
Qed.

Lemma rule1_skipped text cur :
  test_hi_hello text || bool_decide (step cur = START) = false ↔
  lower text ≠ "hi" ∧ lower text ≠ "hello" ∧ step cur ≠ START.
Proof.
  rewrite <- not_true_iff_false, rule1_applies. tauto.
Qed.

Lemma rule2_skipped text :
  test_callback text = false ↔ lower text ≠ "callback".
Proof. by rewrite <- not_true_iff_false, test_callback_lower. Qed.

(** An interactive reply passes the two text rules when its sender is not
    at [START]. *)
Lemma reply_reaches_switch m id st :
  incoming_id m = Some id →
  step (current st (from m)) ≠ START →
  test_hi_hello (incoming_text m) || bool_decide (step (current st (from m)) = START) = false
  ∧ test_callback (incoming_text m) = false.
Proof.
  intros Hid Hs. rewrite (incoming_id_text _ _ Hid). split; [|done].
  apply rule1_skipped. by repeat split.
Qed.

(** What a delivery of an option of the [switch] does, from a state whose
    step is not START: the run of [route] on the store as it is. *)
Lemma post_reply net b m st id :
  first_message b = Some m →
  incoming_id m = Some id →
  step (current st (from m)) ≠ START →
  post_webhook net (Some b) st =
  match route net (from m) (from m) (Some id)
          {| state := <[from m := current st (from m)]> st; sent := [] |} with
  | (inl e, w) => {| response := sendStatus 200; world := w; logged := [e] |}
  | (inr _, w) => {| response := sendStatus 200; world := w; logged := [] |}
  end.
Proof.
  intros Hm Hid Hs.
  destruct (reply_reaches_switch m id st Hid Hs) as [H1 H2].
  unfold post_webhook.
  rewrite (handle_rule3 net b m st Hm (incoming_id_readable m id Hid) H1 H2), Hid.
  by destruct (route _ _ _ _ _) as [[e|[]] w].
Qed.

(** ** The claims *)

Lemma current_Some st waId s : st !! waId = Some s → current st waId = s.
Proof. unfold current. by intros ->. Qed.

Lemma set_step_current st waId v :
  set_step v (current st waId) =
  {| step := v; config := st !! waId ≫= config; budget := st !! waId ≫= budget;
     reason := st !! waId ≫= reason |}.
Proof. unfold current. by destruct (st !! waId). Qed.

(** C1, as amended.  For every delivery that carries a message the
    handler can read: when the message is a text whose trimmed body
    equals "hi" or "hello" ignoring case, or the sender is at START (a
    sender without a state is), the handler calls [sendMessage] once, with
    the main menu for the sender, sets the step to MENU, leaves every
    other field and every other entry as it was and acknowledges with
    200.  Nothing more is assumed of the message, so the rule wins over
    the callback command and over every option identifier. *)
Theorem C1_greeting_or_START_gives_menu net b m st :
  first_message b = Some m →
  readable m = true →
  (∃ body, msg m = text (str body) ∧
           (lower (trim body) = "hi" ∨ lower (trim body) = "hello")) ∨
  st !! from m = None ∨ (∃ s, st !! from m = Some s ∧ step s = START) →
  let nl := String "010"%char "" in
  let o := post_webhook net (Some b) st in
  response o = {| status := 200; body := Some "OK" |} ∧
  sent (world o) =
    [({| messaging_product := "whatsapp";
         to := from m;
         content := interactive_out (button
           ("👋 Hi! Welcome to *Nivaara Realty* 🏡" +:+ nl +:+ nl +:+
            "We simplify your real estate journey across Pune and beyond." +:+ nl +:+
            "Please choose an option below to get started ⬇️")
           [ {| id_ := "BTN_SEARCH"; title := "Search Property" |};
             {| id_ := "BTN_WHY"; title := "Why Nivaara?" |};
             {| id_ := "BTN_EXPERT"; title := "Talk to Expert" |} ]) |},
      net 0)] ∧
  state (world o) =
    <[from m := {| step := MENU; config := st !! from m ≫= config;
                   budget := st !! from m ≫= budget;
                   reason := st !! from m ≫= reason |}]> st.
Proof.
  intros Hm Hr H nl o.
  assert (H1 : test_hi_hello (incoming_text m)
               || bool_decide (step (current st (from m)) = START) = true).
  { apply rule1_applies.
    destruct H as [(body & Hb & Hhi)|[Hnew|(s & Hs & Hstart)]].
    - rewrite (text_incoming m body Hb). tauto.
    - right; right. unfold current. by rewrite Hnew.
    - right; right. by rewrite (current_Some st _ s Hs). }
  unfold o, post_webhook. rewrite (handle_rule1 net b m st Hm Hr H1).
  rewrite set_step_current. by destruct (net 0).
Qed.

Lemma C1_witness :
  let nl := String "010"%char "" in
  let st : gmap string UserState :=
    {["111" := {| step := DONE; config := Some "2BHK"; budget := Some "50 75";
                  reason := Some "Investment" |}]} in
  let o := post_webhook accepting (Some (body_of (typed "111" "  Hello "))) st in
  let o' := post_webhook rejecting (Some (body_of (pressed "222" "RSN_SELF"))) st in
  (sent (world o) =
     [({| messaging_product := "whatsapp";
         to := "111";
         content := interactive_out (button
           ("👋 Hi! Welcome to *Nivaara Realty* 🏡" +:+ nl +:+ nl +:+
            "We simplify your real estate journey across Pune and beyond." +:+ nl +:+
            "Please choose an option below to get started ⬇️")
           [ {| id_ := "BTN_SEARCH"; title := "Search Property" |};
             {| id_ := "BTN_WHY"; title := "Why Nivaara?" |};
             {| id_ := "BTN_EXPERT"; title := "Talk to Expert" |} ]) |},
       true)] ∧
   state (world o) !! "111" =
     Some {| step := MENU; config := Some "2BHK"; budget := Some "50 75";
             reason := Some "Investment" |}) ∧
  (sent (world o') =
     [({| messaging_product := "whatsapp";
         to := "222";
         content := interactive_out (button
           ("👋 Hi! Welcome to *Nivaara Realty* 🏡" +:+ nl +:+ nl +:+
            "We simplify your real estate journey across Pune and beyond." +:+ nl +:+
            "Please choose an option below to get started ⬇️")
           [ {| id_ := "BTN_SEARCH"; title := "Search Property" |};
             {| id_ := "BTN_WHY"; title := "Why Nivaara?" |};
             {| id_ := "BTN_EXPERT"; title := "Talk to Expert" |} ]) |},
       false)] ∧
   state (world o') !! "222" =
     Some {| step := MENU; config := None; budget := None; reason := None |}).
Proof.
  intros nl st o o'. split.
  - destruct (C1_greeting_or_START_gives_menu accepting
                (body_of (typed "111" "  Hello ")) (typed "111" "  Hello ") st)
      as (_ & Hsent & Hst); [reflexivity|reflexivity| |].
    + left. exists "  Hello ". split; [reflexivity|right; reflexivity].
    + split; [exact Hsent|]. unfold o. rewrite Hst. apply lookup_insert_eq.
  - destruct (C1_greeting_or_START_gives_menu rejecting
                (body_of (pressed "222" "RSN_SELF")) (pressed "222" "RSN_SELF") st)
      as (_ & Hsent & Hst); [reflexivity|reflexivity| |].
    + right; left. reflexivity.
    + split; [exact Hsent|]. unfold o'. rewrite Hst. apply lookup_insert_eq.
Defined.

(** C1 as it is written fails on a message the handler cannot read: a
    first message of type [interactive] without its [interactive] object
    raises on line 316, after the state of the sender was stored at
    START and before the first rule; no menu is sent. *)
Lemma C1_counterexample :
  let m := {| from := "111"; msg := interactive None |} in
  let o := post_webhook accepting (Some (body_of m)) state0 in
  first_message (body_of m) = Some m ∧
  response o = {| status := 200; body := Some "OK" |} ∧
  sent (world o) = [] ∧
  logged o = [TypeError] ∧
  state (world o) !! "111" =
    Some {| step := START; config := None; budget := None; reason := None |}.
Proof. repeat split; vm_compute; reflexivity. Qed.

(** C2, as amended.  From a state whose step is not START, a reason option
    (RSN_SELF, RSN_INVEST) stores "Self Use", respectively "Investment", as
    the reason and sets the step to DONE; the handler then calls
    [sendMessage] with the summary for the sender, whose text holds the
    stored configuration, budget and reason ("-" for one that is not
    set), the link and the hint on CALLBACK; when that call is accepted,
    the main menu is sent next, and when it is rejected nothing more is
    sent. *)
Theorem C2_reason_gives_summary_then_menu net b m st cur id :
  first_message b = Some m →
  incoming_id m = Some id →
  id = "RSN_SELF" ∨ id = "RSN_INVEST" →
  st !! from m = Some cur →
  step cur ≠ START →
  let nl := String "010"%char "" in
  let shown := λ field : option string,
    match field with Some (String c s) => String c s | _ => "-" end in
  let chosen := if decide (id = "RSN_SELF") then "Self Use" else "Investment" in
  let o := post_webhook net (Some b) st in
  response o = {| status := 200; body := Some "OK" |} ∧
  state (world o) =
    <[from m := {| step := DONE; config := config cur; budget := budget cur;
                   reason := Some chosen |}]> st ∧
  sent (world o) =
    ({| messaging_product := "whatsapp";
       to := from m;
       content := text_out
         (("✅ Great! Here’s what you selected:" +:+ nl +:+
           "• Configuration: " +:+ shown (config cur) +:+ nl +:+
           "• Budget: " +:+ shown (budget cur) +:+ nl +:+
           "• Purpose: " +:+ chosen +:+ nl +:+ nl) +:+
          "👉 Browse matching properties here: " +:+ "https://nivaararealty.com/" +:+ nl +:+
          "Or type *CALLBACK* to connect with our expert.") |},
     net 0) ::
    (if net 0
     then [({| messaging_product := "whatsapp";
              to := from m;
              content := interactive_out (button
                ("👋 Hi! Welcome to *Nivaara Realty* 🏡" +:+ nl +:+ nl +:+
                 "We simplify your real estate journey across Pune and beyond." +:+ nl +:+
                 "Please choose an option below to get started ⬇️")
                [ {| id_ := "BTN_SEARCH"; title := "Search Property" |};
                  {| id_ := "BTN_WHY"; title := "Why Nivaara?" |};
                  {| id_ := "BTN_EXPERT"; title := "Talk to Expert" |} ]) |},
            net 1)]
     else []).
Proof.
  intros Hm Hid Hin Hcur Hs nl shown chosen o.
  assert (Hc : current st (from m) = cur) by by apply current_Some.
  assert (Hs' : step (current st (from m)) ≠ START) by by rewrite Hc.
  assert (Hr : id ∈ reason_ids).
  { unfold reason_ids. destruct Hin as [-> | ->]; in_list. }
  unfold o. rewrite (post_reply net b m st id Hm Hid Hs'), Hc.
  rewrite (route_reason net (from m) cur st id Hr). cbv zeta.
  assert (Hl : (if (id =? "RSN_SELF")%string then "Self Use" else "Investment") = chosen).
  { unfold chosen. destruct Hin as [-> | ->]; reflexivity. }
  rewrite Hl.
  assert (Hf : final (from m) (set_step DONE (set_reason chosen cur)) =
               {| messaging_product := "whatsapp";
       to := from m;
       content := text_out
         (("✅ Great! Here’s what you selected:" +:+ nl +:+
           "• Configuration: " +:+ shown (config cur) +:+ nl +:+
           "• Budget: " +:+ shown (budget cur) +:+ nl +:+
           "• Purpose: " +:+ chosen +:+ nl +:+ nl) +:+
          "👉 Browse matching properties here: " +:+ "https://nivaararealty.com/" +:+ nl +:+
          "Or type *CALLBACK* to connect with our expert.") |}).
  { unfold chosen. destruct Hin as [-> | ->]; reflexivity. }
  rewrite Hf.
  destruct (net 0); [destruct (net 1)|]; done.
Qed.

Lemma C2_witness :
  let nl := String "010"%char "" in
  let st : gmap string UserState :=
    {["111" := {| step := ASK_REASON; config := Some "2BHK"; budget := None;
                  reason := None |}]} in
  let o := post_webhook accepting (Some (body_of (pressed "111" "RSN_INVEST"))) st in
  state (world o) !! "111" =
    Some {| step := DONE; config := Some "2BHK"; budget := None;
            reason := Some "Investment" |} ∧
  sent (world o) =
    [ ({| messaging_product := "whatsapp";
          to := "111";
          content := text_out
            ("✅ Great! Here’s what you selected:" +:+ nl +:+
             "• Configuration: " +:+ "2BHK" +:+ nl +:+
             "• Budget: " +:+ "-" +:+ nl +:+
             "• Purpose: " +:+ "Investment" +:+ nl +:+ nl +:+
             "👉 Browse matching properties here: https://nivaararealty.com/" +:+ nl +:+
             "Or type *CALLBACK* to connect with our expert.") |},
       true);
      ({| messaging_product := "whatsapp";
          to := "111";
          content := interactive_out (button
            ("👋 Hi! Welcome to *Nivaara Realty* 🏡" +:+ nl +:+ nl +:+
             "We simplify your real estate journey across Pune and beyond." +:+ nl +:+
             "Please choose an option below to get started ⬇️")
            [ {| id_ := "BTN_SEARCH"; title := "Search Property" |};
              {| id_ := "BTN_WHY"; title := "Why Nivaara?" |};
              {| id_ := "BTN_EXPERT"; title := "Talk to Expert" |} ]) |},
       true) ].
Proof.
  intros nl st o.
  destruct (C2_reason_gives_summary_then_menu accepting
              (body_of (pressed "111" "RSN_INVEST")) (pressed "111" "RSN_INVEST") st
              {| step := ASK_REASON; config := Some "2BHK"; budget := None; reason := None |}
              "RSN_INVEST")
    as (_ & Hst & Hsent).
  - reflexivity.
  - reflexivity.
  - right; reflexivity.
  - reflexivity.
  - discriminate.
  - split.
    + unfold o. rewrite Hst. apply lookup_insert_eq.
    + unfold o. rewrite Hsent. reflexivity.
Defined.

(** C2 as it is written fails twice.  A user at START who presses RSN_SELF
    gets the main menu and no reason is stored; and when the call that
    sends the summary is rejected, no main menu follows it. *)
Lemma C2_counterexample :
  (let o := post_webhook accepting (Some (body_of (pressed "111" "RSN_SELF"))) state0 in
   state (world o) !! "111" =
     Some {| step := MENU; config := None; budget := None; reason := None |} ∧
   ∃ p, sent (world o) = [(p, true)] ∧ map id_ (choices_of p) = ["BTN_SEARCH"; "BTN_WHY"; "BTN_EXPERT"]) ∧
  (let st : gmap string UserState :=
     {["111" := {| step := ASK_REASON; config := Some "2BHK"; budget := Some "50 75";
                   reason := None |}]} in
   let o := post_webhook rejecting (Some (body_of (pressed "111" "RSN_INVEST"))) st in
   response o = {| status := 200; body := Some "OK" |} ∧
   ∃ p, sent (world o) = [(p, false)] ∧ choices_of p = []).
Proof.
  split.
  - split; [vm_compute; reflexivity|]. eexists. split; vm_compute; reflexivity.
  - split; [reflexivity|]. eexists. split; vm_compute; reflexivity.
Qed.

(** C3, as amended.  From a state whose step is not START, a budget option
    stores the suffix of its identifier with every underscore replaced by
    a space (one of "BELOW 50", "50 75", "75 1CR", "1CR PLUS"), sets the step
    to ASK_REASON and sends the sender the two reason buttons. *)
Theorem C3_budget_gives_reason_options net b m st cur id :
  first_message b = Some m →
  incoming_id m = Some id →
  id ∈ budget_ids →
  st !! from m = Some cur →
  step cur ≠ START →
  let stored := replaceAll "_" " " (replace "BUD_" "" id) in
  let o := post_webhook net (Some b) st in
  (id, stored) ∈ [ ("BUD_BELOW_50", "BELOW 50"); ("BUD_50_75", "50 75");
                   ("BUD_75_1CR", "75 1CR"); ("BUD_1CR_PLUS", "1CR PLUS") ] ∧
  response o = {| status := 200; body := Some "OK" |} ∧
  state (world o) =
    <[from m := {| step := ASK_REASON; config := config cur; budget := Some stored;
                   reason := reason cur |}]> st ∧
  sent (world o) =
    [({| messaging_product := "whatsapp";
        to := from m;
        content := interactive_out (button
          "Almost done! Why are you looking to buy?"
          [ {| id_ := "RSN_SELF"; title := "Self Use" |};
            {| id_ := "RSN_INVEST"; title := "Investment" |} ]) |},
      net 0)].
Proof.
  intros Hm Hid Hin Hcur Hs stored o.
  assert (Hc : current st (from m) = cur) by by apply current_Some.
  assert (Hs' : step (current st (from m)) ≠ START) by by rewrite Hc.
  split.
  - unfold stored, budget_ids in *. each_of Hin; vm_compute; in_list.
  - unfold o. rewrite (post_reply net b m st id Hm Hid Hs'), Hc.
    rewrite (route_budget net (from m) cur st id Hin).
    by destruct (net 0).
Qed.

Lemma C3_witness :
  let st : gmap string UserState :=
    {["111" := {| step := ASK_BUDGET; config := Some "2BHK"; budget := None;
                  reason := None |}]} in
  let o := post_webhook accepting (Some (body_of (picked "111" "BUD_50_75"))) st in
  state (world o) !! "111" =
    Some {| step := ASK_REASON; config := Some "2BHK"; budget := Some "50 75";
            reason := None |} ∧
  sent (world o) =
    [({| messaging_product := "whatsapp";
        to := "111";
        content := interactive_out (button
          "Almost done! Why are you looking to buy?"
          [ {| id_ := "RSN_SELF"; title := "Self Use" |};
            {| id_ := "RSN_INVEST"; title := "Investment" |} ]) |},
      true)].
Proof.
  intros st o.
  destruct (C3_budget_gives_reason_options accepting
              (body_of (picked "111" "BUD_50_75")) (picked "111" "BUD_50_75") st
              {| step := ASK_BUDGET; config := Some "2BHK"; budget := None; reason := None |}
              "BUD_50_75")
    as (_ & _ & Hst & Hsent).
  - reflexivity.
  - reflexivity.
  - unfold budget_ids. apply list_elem_of_further, list_elem_of_here.
  - reflexivity.
  - discriminate.
  - split.
    + unfold o. rewrite Hst. apply lookup_insert_eq.
    + unfold o. rewrite Hsent. reflexivity.
Defined.

(** C3 as it is written fails for a user at START: the budget option is
    not stored, the step becomes MENU and the main menu is sent. *)
Lemma C3_counterexample :
  let o := post_webhook accepting (Some (body_of (picked "111" "BUD_50_75"))) state0 in
  state (world o) !! "111" =
    Some {| step := MENU; config := None; budget := None; reason := None |} ∧
  ∃ p, sent (world o) = [(p, true)] ∧
       map id_ (choices_of p) = ["BTN_SEARCH"; "BTN_WHY"; "BTN_EXPERT"].
Proof. split; [vm_compute; reflexivity|]. eexists. split; vm_compute; reflexivity. Qed.

(** C4. From a state whose step is not START, a configuration option
    stores the suffix of its identifier, sets the step to ASK_BUDGET and
    sends the sender the list of budgets; delivered a second time, it
    leaves the store as the first delivery left it and sends the list of
    budgets again. *)
Theorem C4_config_gives_budget_list net net' b m st cur id :
  first_message b = Some m →
  incoming_id m = Some id →
  id ∈ config_ids →
  st !! from m = Some cur →
  step cur ≠ START →
  let stored := replace "CFG_" "" id in
  let o := post_webhook net (Some b) st in
  let o' := post_webhook net' (Some b) (state (world o)) in
  let budgets :=
    {| messaging_product := "whatsapp";
       to := from m;
       content := interactive_out (list_
         "💰 Choose your price range" "Select" "Price Range"
         [ {| id_ := "BUD_BELOW_50"; title := "Below ₹50L" |};
           {| id_ := "BUD_50_75"; title := "₹50–75L" |};
           {| id_ := "BUD_75_1CR"; title := "₹75L–1Cr" |};
           {| id_ := "BUD_1CR_PLUS"; title := "₹1Cr+" |} ]) |} in
  id = "CFG_" +:+ stored ∧ stored ∈ config_values ∧
  response o = {| status := 200; body := Some "OK" |} ∧
  state (world o) =
    <[from m := {| step := ASK_BUDGET; config := Some stored; budget := budget cur;
                   reason := reason cur |}]> st ∧
  sent (world o) = [(budgets, net 0)] ∧
  response o' = {| status := 200; body := Some "OK" |} ∧
  state (world o') = state (world o) ∧
  sent (world o') = [(budgets, net' 0)].
Proof.
  intros Hm Hid Hin Hcur Hs stored o o' budgets.
  assert (Hone : ∀ n st0 s, st0 !! from m = Some s → step s ≠ START →
            let o0 := post_webhook n (Some b) st0 in
            response o0 = sendStatus 200 ∧
            state (world o0) =
              <[from m := set_step ASK_BUDGET (set_config stored s)]> st0 ∧
            sent (world o0) = [(budgetList (from m), n 0)]).
  { intros n st0 s Hs0 Hstep. cbv zeta.
    assert (Hc : current st0 (from m) = s) by by apply current_Some.
    rewrite (post_reply n b m st0 id Hm Hid) by by rewrite Hc.
    rewrite Hc, (route_config n (from m) s st0 id Hin).
    by destruct (n 0). }
  destruct (Hone net st cur Hcur Hs) as (Hr & Hst & Hsent).
  destruct (Hone net' (state (world o)) (set_step ASK_BUDGET (set_config stored cur)))
    as (Hr' & Hst' & Hsent').
  { unfold o. by rewrite Hst, lookup_insert_eq. }
  { done. }
  fold o' in Hr', Hst', Hsent'. fold o in Hr, Hst, Hsent.
  split; [|split].
  - unfold stored, config_ids in *. each_of Hin; reflexivity.
  - unfold stored, config_ids, config_values in *. each_of Hin; vm_compute; in_list.
  - repeat split; try done.
    rewrite Hst', Hst. by rewrite insert_insert_eq.
Qed.

Lemma C4_witness :
  let st : gmap string UserState :=
    {["111" := {| step := ASK_CONFIG; config := None; budget := None; reason := None |}]} in
  let o := post_webhook accepting (Some (body_of (picked "111" "CFG_2BHK"))) st in
  let o' := post_webhook rejecting (Some (body_of (picked "111" "CFG_2BHK"))) (state (world o)) in
  let budgets :=
    {| messaging_product := "whatsapp";
       to := "111";
       content := interactive_out (list_
         "💰 Choose your price range" "Select" "Price Range"
         [ {| id_ := "BUD_BELOW_50"; title := "Below ₹50L" |};
           {| id_ := "BUD_50_75"; title := "₹50–75L" |};
           {| id_ := "BUD_75_1CR"; title := "₹75L–1Cr" |};
           {| id_ := "BUD_1CR_PLUS"; title := "₹1Cr+" |} ]) |} in
  state (world o) !! "111" =
    Some {| step := ASK_BUDGET; config := Some "2BHK"; budget := None; reason := None |} ∧
  sent (world o) = [(budgets, true)] ∧
  state (world o') = state (world o) ∧
  sent (world o') = [(budgets, false)].
Proof.
  intros st o o' budgets.
  destruct (C4_config_gives_budget_list accepting rejecting
              (body_of (picked "111" "CFG_2BHK")) (picked "111" "CFG_2BHK") st
              {| step := ASK_CONFIG; config := None; budget := None; reason := None |}
              "CFG_2BHK")
    as (_ & _ & _ & Hst & Hsent & _ & Hst' & Hsent').
  - reflexivity.
  - reflexivity.
  - unfold config_ids. apply list_elem_of_further, list_elem_of_here.
  - reflexivity.
  - discriminate.
  - split; [|split; [|split]].
    + unfold o. rewrite Hst. apply lookup_insert_eq.
    + exact Hsent.
    + exact Hst'.
    + exact Hsent'.
Defined.

(** C6, as amended.  A delivery whose message the handler can read, that
    matches neither the greeting nor START, nor the callback command, and
    carries no identifier the [switch] has a case for (no identifier at
    all, or an unknown one) makes the handler send the sender the prompt
    on HI and CALLBACK and leaves the store as it was. *)
Theorem C6_fallback_changes_nothing net b m st cur :
  first_message b = Some m →
  readable m = true →
  st !! from m = Some cur →
  step cur ≠ START →
  (∀ body, msg m = text (str body) →
     lower (trim body) ≠ "hi" ∧ lower (trim body) ≠ "hello" ∧
     lower (trim body) ≠ "callback") →
  (∀ id, incoming_id m = Some id → id ∉ recognized_ids) →
  let o := post_webhook net (Some b) st in
  response o = {| status := 200; body := Some "OK" |} ∧
  sent (world o) =
    [({| messaging_product := "whatsapp";
        to := from m;
        content := text_out
          ("Type *HI* to start over, or *CALLBACK* for an expert call.") |},
      net 0)] ∧
  state (world o) = st.
Proof.
  intros Hm Hr Hcur Hs Htext Hid o.
  assert (Hc : current st (from m) = cur) by by apply current_Some.
  assert (Ht : lower (incoming_text m) ≠ "hi" ∧ lower (incoming_text m) ≠ "hello" ∧
               lower (incoming_text m) ≠ "callback").
  { unfold incoming_text. destruct (msg m) as [[s| |]| |] eqn:E; try done.
    by apply Htext. }
  assert (H1 : test_hi_hello (incoming_text m)
               || bool_decide (step (current st (from m)) = START) = false).
  { apply rule1_skipped. rewrite Hc. tauto. }
  assert (H2 : test_callback (incoming_text m) = false) by (apply rule2_skipped; tauto).
  unfold o, post_webhook. rewrite (handle_rule3 net b m st Hm Hr H1 H2).
  rewrite (route_default net (from m) (current st (from m)) st _ Hid).
  rewrite Hc, (insert_id st (from m) cur Hcur).
  by destruct (net 0).
Qed.

Lemma C6_witness :
  let st : gmap string UserState :=
    {["111" := {| step := ASK_BUDGET; config := Some "2BHK"; budget := None;
                  reason := None |}]} in
  let o := post_webhook accepting (Some (body_of (picked "111" "CFG_5BHK"))) st in
  let o' := post_webhook rejecting (Some (body_of (typed "111" "what is the price?"))) st in
  (sent (world o) =
     [({| messaging_product := "whatsapp";
         to := "111";
         content := text_out
           ("Type *HI* to start over, or *CALLBACK* for an expert call.") |},
       true)] ∧
   state (world o) = st) ∧
  (sent (world o') =
     [({| messaging_product := "whatsapp";
         to := "111";
         content := text_out
           ("Type *HI* to start over, or *CALLBACK* for an expert call.") |},
       false)] ∧
   state (world o') = st).
Proof.
  intros st o o'. split.
  - destruct (C6_fallback_changes_nothing accepting
                (body_of (picked "111" "CFG_5BHK")) (picked "111" "CFG_5BHK") st
                {| step := ASK_BUDGET; config := Some "2BHK"; budget := None;
                   reason := None |})
      as (_ & Hsent & Hst); try (reflexivity || discriminate).
    + intros id [= <-]. unfold recognized_ids, config_ids, budget_ids, reason_ids.
      cbn [app]. rewrite list_elem_of_In. cbn [In]. intros H.
      repeat destruct H as [H|H]; try discriminate H. exact H.
    + split; [exact Hsent | exact Hst].
  - destruct (C6_fallback_changes_nothing rejecting
                (body_of (typed "111" "what is the price?"))
                (typed "111" "what is the price?") st
                {| step := ASK_BUDGET; config := Some "2BHK"; budget := None;
                   reason := None |})
      as (_ & Hsent & Hst); try (reflexivity || discriminate).
    + intros body [= <-]. repeat split; discriminate.
    + split; [exact Hsent | exact Hst].
Defined.

(** C6 as it is written fails on a message the handler cannot read: a
    button reply without its [button_reply] object, from a sender past
    START, matches no rule and no identifier, yet line 317 raises and no
    prompt is sent. *)
Lemma C6_counterexample :
  let st : gmap string UserState :=
    {["111" := {| step := ASK_BUDGET; config := Some "2BHK"; budget := None;
                  reason := None |}]} in
  let m := {| from := "111"; msg := interactive (Some (button_reply None)) |} in
  let o := post_webhook accepting (Some (body_of m)) st in
  first_message (body_of m) = Some m ∧
  incoming_id m = None ∧ incoming_text m = "" ∧
  response o = {| status := 200; body := Some "OK" |} ∧
  sent (world o) = [] ∧
  logged o = [TypeError].
Proof. repeat split; vm_compute; reflexivity. Qed.

(** C7. A verification request whose mode is "subscribe" and whose token
    is the configured secret is answered 200 with the challenge it
    supplied as the body; any other one is answered 403 with the fixed
    body of that status, whatever the challenge.  Neither touches the
    store. *)
Theorem C7_verification VERIFY_TOKEN query w :
  (hub_mode query = Some "subscribe" ∧ hub_verify_token query = Some VERIFY_TOKEN →
   get_webhook VERIFY_TOKEN query w =
     (inr {| status := 200; body := hub_challenge query |}, w)) ∧
  (¬ (hub_mode query = Some "subscribe" ∧ hub_verify_token query = Some VERIFY_TOKEN) →
   get_webhook VERIFY_TOKEN query w =
     (inr {| status := 403; body := Some "Forbidden" |}, w)).
Proof.
  unfold get_webhook. split.
  - intros [-> ->]. by rewrite !bool_decide_eq_true_2.
  - intros H.
    destruct (bool_decide (hub_mode query = Some "subscribe")) eqn:E1;
      destruct (bool_decide (hub_verify_token query = Some VERIFY_TOKEN)) eqn:E2;
      try reflexivity.
    apply bool_decide_eq_true in E1, E2. tauto.
Qed.

Lemma C7_witness :
  let w := {| state := {["111" := new_user]}; sent := [] |} in
  get_webhook "s3cret"
    {| hub_mode := Some "subscribe"; hub_verify_token := Some "s3cret";
       hub_challenge := Some "1158201444" |} w
  = (inr {| status := 200; body := Some "1158201444" |}, w) ∧
  get_webhook "s3cret"
    {| hub_mode := Some "subscribe"; hub_verify_token := Some "guess";
       hub_challenge := Some "1158201444" |} w
  = (inr {| status := 403; body := Some "Forbidden" |}, w).
Proof.
  intros w. split.
  - apply (C7_verification "s3cret"
             {| hub_mode := Some "subscribe"; hub_verify_token := Some "s3cret";
                hub_challenge := Some "1158201444" |} w).
    split; reflexivity.
  - apply (C7_verification "s3cret"
             {| hub_mode := Some "subscribe"; hub_verify_token := Some "guess";
                hub_challenge := Some "1158201444" |} w).
    intros [_ H]. discriminate H.
Defined.

(** C8: the code at the input where it departs from the claim.  A user
    at MENU types "callback" and the call that sends the lead-capture
    prompt is rejected: the assignment of line 339 is not reached and the
    step stays MENU.  The button BTN_EXPERT, which assigns before it
    sends, leaves the same user at LEAD_CAPTURE on the same rejection. *)
Lemma C8_rejected_send_leaves_the_step :
  let st : gmap string UserState :=
    {["111" := {| step := MENU; config := None; budget := None; reason := None |}]} in
  let o := post_webhook rejecting (Some (body_of (typed "111" "callback"))) st in
  let o' := post_webhook rejecting (Some (body_of (pressed "111" "BTN_EXPERT"))) st in
  response o = {| status := 200; body := Some "OK" |} ∧
  sent (world o) =
    [({| messaging_product := "whatsapp";
        to := "111";
        content := text_out
          ("📞 Please share your *Name + Preferred Area + Budget* and our advisor will call you shortly.") |},
      false)] ∧
  state (world o) !! "111" =
    Some {| step := MENU; config := None; budget := None; reason := None |} ∧
  state (world o') !! "111" =
    Some {| step := LEAD_CAPTURE; config := None; budget := None; reason := None |}.
Proof. repeat split; vm_compute; reflexivity. Qed.

(** ** The shape of every delivery *)

Ltac solve_evolves :=
  intros;
  unfold keeps_filled, valid_user, holds_null_or, set_step, set_config, set_budget,
    set_reason in *; cbn [step config budget reason] in *;
  repeat split; intros; try tauto; try (by eexists);
  repeat match goal with H : _ ∧ _ |- _ => destruct H end;
  try assumption;
  try match goal with |- _ ∈ _ => solve [vm_compute; in_list] end.

Ltac shape_of net s ps lem :=
  exists s, ps; cbn [send_all];
  let E0 := fresh "E" in
  let E1 := fresh "E" in
  destruct (net 0) eqn:E0; [destruct (net 1) eqn:E1|];
  eexists; (split; [intros ?; rewrite lem, ?E0, ?E1; reflexivity|]); solve_evolves.

(** What the [switch] does is settled by the state of the sender alone:
    its new state [s'], the payloads [ps] it hands to [sendMessage] and
    how it ends are the same on every store. *)
Lemma route_shape net u cur incomingId :
  ∃ s' ps r,
    (∀ st, route net u u incomingId {| state := <[u := cur]> st; sent := [] |} =
           (r, {| state := <[u := s']> st; sent := (send_all net 0 ps).1 |})) ∧
    keeps_filled cur s' ∧
    (valid_user cur → valid_user s') ∧
    (send_all net 0 ps).2 = match r with inl e => [e] | inr _ => [] end.
Proof.
  assert (Hdefault : (∀ id, incomingId = Some id → id ∉ recognized_ids) →
            ∃ s' ps r,
              (∀ st, route net u u incomingId {| state := <[u := cur]> st; sent := [] |} =
                     (r, {| state := <[u := s']> st; sent := (send_all net 0 ps).1 |})) ∧
              keeps_filled cur s' ∧
              (valid_user cur → valid_user s') ∧
              (send_all net 0 ps).2 = match r with inl e => [e] | inr _ => [] end).
  { intros H. shape_of net cur [fallbackPrompt u]
      (λ st, route_default net u cur st incomingId H). }
  destruct incomingId as [id|]; [|by apply Hdefault].
  destruct (decide (id ∈ recognized_ids)) as [Hin|Hout];
    [|by apply Hdefault; intros ? [= <-]].
  clear Hdefault.
  unfold recognized_ids, config_ids, budget_ids, reason_ids in Hin. cbn [app] in Hin.
  each_of Hin.
  - shape_of net (set_step ASK_CONFIG cur) [configList u] route_search.
  - shape_of net cur [whyNivaara u; welcome u] route_why.
  - shape_of net (set_step LEAD_CAPTURE cur) [expertPrompt u] route_expert.
  - assert (H : "CFG_1BHK" ∈ config_ids) by (unfold config_ids; in_list).
    shape_of net (set_step ASK_BUDGET (set_config "1BHK" cur)) [budgetList u]
      (λ st, route_config net u cur st _ H).
  - assert (H : "CFG_2BHK" ∈ config_ids) by (unfold config_ids; in_list).
    shape_of net (set_step ASK_BUDGET (set_config "2BHK" cur)) [budgetList u]
      (λ st, route_config net u cur st _ H).
  - assert (H : "CFG_3BHK" ∈ config_ids) by (unfold config_ids; in_list).
    shape_of net (set_step ASK_BUDGET (set_config "3BHK" cur)) [budgetList u]
      (λ st, route_config net u cur st _ H).
  - assert (H : "CFG_4PLUS" ∈ config_ids) by (unfold config_ids; in_list).
    shape_of net (set_step ASK_BUDGET (set_config "4PLUS" cur)) [budgetList u]
      (λ st, route_config net u cur st _ H).
  - assert (H : "BUD_BELOW_50" ∈ budget_ids) by (unfold budget_ids; in_list).
    shape_of net (set_step ASK_REASON (set_budget "BELOW 50" cur)) [reasonButtons u]
      (λ st, route_budget net u cur st _ H).
  - assert (H : "BUD_50_75" ∈ budget_ids) by (unfold budget_ids; in_list).
    shape_of net (set_step ASK_REASON (set_budget "50 75" cur)) [reasonButtons u]
      (λ st, route_budget net u cur st _ H).
  - assert (H : "BUD_75_1CR" ∈ budget_ids) by (unfold budget_ids; in_list).
    shape_of net (set_step ASK_REASON (set_budget "75 1CR" cur)) [reasonButtons u]
      (λ st, route_budget net u cur st _ H).
  - assert (H : "BUD_1CR_PLUS" ∈ budget_ids) by (unfold budget_ids; in_list).
    shape_of net (set_step ASK_REASON (set_budget "1CR PLUS" cur)) [reasonButtons u]
      (λ st, route_budget net u cur st _ H).
  - assert (H : "RSN_SELF" ∈ reason_ids) by (unfold reason_ids; in_list).
    shape_of net (set_step DONE (set_reason "Self Use" cur))
      [final u (set_step DONE (set_reason "Self Use" cur)); welcome u]
      (λ st, route_reason net u cur st _ H).
  - assert (H : "RSN_INVEST" ∈ reason_ids) by (unfold reason_ids; in_list).
    shape_of net (set_step DONE (set_reason "Investment" cur))
      [final u (set_step DONE (set_reason "Investment" cur)); welcome u]
      (λ st, route_reason net u cur st _ H).
Qed.

(** A delivery that carries a message is acknowledged with 200; the new
    state [s'] of its sender, the payloads [ps] handed to [sendMessage]
    and what is printed are settled by the state of the sender, and the
    entry of the sender is the only one written.  What is printed is the
    error of the rejected call, or, for a message that cannot be read, a
    [TypeError], nothing being sent then. *)
Lemma delivery_of_message net b m cur :
  first_message b = Some m →
  ∃ s' ps lg,
    keeps_filled cur s' ∧
    (valid_user cur → valid_user s') ∧
    (lg = (send_all net 0 ps).2 ∨ ps = [] ∧ lg = [TypeError]) ∧
    ∀ st, current st (from m) = cur →
      let o := post_webhook net (Some b) st in
      response o = sendStatus 200 ∧
      state (world o) = <[from m := s']> st ∧
      sent (world o) = (send_all net 0 ps).1 ∧
      logged o = lg.
Proof.
  intros Hm.
  destruct (readable m) eqn:Hr.
  2:{ exists cur, [], [TypeError].
      split; [solve_evolves|]. split; [solve_evolves|]. split; [by right|].
      intros st <-. unfold post_webhook. by rewrite (handle_unreadable net b m st Hm Hr). }
  destruct (test_hi_hello (incoming_text m) || bool_decide (step cur = START)) eqn:H1.
  { exists (set_step MENU cur), [welcome (from m)]. eexists.
    split; [solve_evolves|]. split; [solve_evolves|]. split; [by left|].
    intros st <-. unfold post_webhook. rewrite (handle_rule1 net b m st Hm Hr H1).
    cbn [send_all]. by destruct (net 0). }
  destruct (test_callback (incoming_text m)) eqn:H2.
  { exists (if net 0 then set_step LEAD_CAPTURE cur else cur), [callbackPrompt (from m)].
    eexists.
    split; [destruct (net 0); solve_evolves|].
    split; [destruct (net 0); solve_evolves|]. split; [by left|].
    intros st <-. unfold post_webhook. rewrite (handle_rule2 net b m st Hm Hr H1 H2).
    cbn [send_all]. by destruct (net 0). }
  destruct (route_shape net (from m) cur (incoming_id m))
    as (s' & ps & r & Hrt & Hk & Hv & Hl).
  exists s', ps, (send_all net 0 ps).2. split; [done|]. split; [done|]. split; [by left|].
  intros st <-. unfold post_webhook. rewrite (handle_rule3 net b m st Hm Hr H1 H2), Hrt.
  cbv zeta. rewrite Hl. by destruct r.
Qed.

(** Every delivery is acknowledged with 200.  Either it carries no message
    and nothing happens, or the entry of the sender is the only one
    written, no field of it is emptied, and the calls of [sendMessage] are
    those of a run that stops at the first rejected call. *)
Lemma delivery_shape net req st :
  let o := post_webhook net req st in
  response o = sendStatus 200 ∧
  ((state (world o) = st ∧ sent (world o) = [] ∧
    (req = None ∨ ∃ b, req = Some b ∧ first_message b = None))
   ∨
   (∃ b m s' ps,
      req = Some b ∧ first_message b = Some m ∧
      state (world o) = <[from m := s']> st ∧
      keeps_filled (current st (from m)) s' ∧
      (valid_user (current st (from m)) → valid_user s') ∧
      sent (world o) = (send_all net 0 ps).1 ∧
      (logged o = (send_all net 0 ps).2 ∨ ps = [] ∧ logged o = [TypeError]))).
Proof.
  destruct req as [b|]; [|by split; [|left; auto]].
  destruct (first_message b) as [m|] eqn:Hm.
  2:{ unfold post_webhook, handle. rewrite Hm.
      split; [done|]. left. repeat split; eauto. }
  destruct (delivery_of_message net b m (current st (from m)) Hm)
    as (s' & ps & lg & Hk & Hv & Hlg & Hall).
  destruct (Hall st eq_refl) as (Hr & Hst & Hsent & Hlog).
  cbv zeta. split; [done|]. right. exists b, m, s', ps.
  split; [done|]. split; [done|]. split; [done|]. split; [done|].
  split; [done|]. split; [done|]. by rewrite Hlog.
Qed.

Lemma send_all_stops net ps : ∀ k pre p post,
  (send_all net k ps).1 = pre ++ (p, false) :: post →
  post = [] ∧ (send_all net k ps).2 = [SendError p] ∧ Forall (λ a, a.2 = true) pre.
Proof.
  induction ps as [|q ps IH]; intros k pre p post; cbn [send_all].
  - by destruct pre.
  - destruct (net k); cbn [fst snd].
    + destruct pre as [|a pre]; cbn [app]; intros H; [by simplify_eq|].
      injection H as <- H.
      destruct (IH _ _ _ _ H) as (? & ? & ?).
      repeat split; [done..|]. by constructor.
    + destruct pre as [|a pre]; cbn [app]; intros H; simplify_eq.
      * done.
      * by destruct pre.
Qed.

(** C5, as amended.  The body parser answers a delivery whose body is
    longer than 100kb with 413 and one whose body is not JSON with 400,
    and the handler does not run.  Every delivery that reaches the handler
    is acknowledged with status 200.  One without a message that can be
    extracted (no parsed body, or a link of the chain missing) changes no
    state and sends nothing.  A rejected call of [sendMessage] is the last
    call of the delivery, so it is not tried again; what it raised is
    printed by [console.error], and the calls before it were accepted. *)
Theorem C5_always_acknowledged net r st :
  match app_post net r st with
  | refused c =>
      c = 413 ∧ (102400 < content_length r)%N ∨
      c = 400 ∧ (content_length r ≤ 102400)%N ∧ json r = None
  | handled o =>
      (content_length r ≤ 102400)%N ∧
      ∃ b, json r = Some b ∧ o = post_webhook net (Some b) st
  end ∧
  ∀ req,
    let o := post_webhook net req st in
    response o = {| status := 200; body := Some "OK" |} ∧
    (req = None ∨ (∃ b, req = Some b ∧ first_message b = None) →
     state (world o) = st ∧ sent (world o) = []) ∧
    (∀ pre p post,
       sent (world o) = pre ++ (p, false) :: post →
       post = [] ∧ logged o = [SendError p] ∧ Forall (λ a, a.2 = true) pre).
Proof.
  split.
  - unfold app_post, limit. destruct (N.ltb_spec 102400 (content_length r)) as [Hlt|Hle].
    + by left.
    + destruct (json r) as [b|]; [|by right].
      split; [done|]. by exists b.
  - intros req o. destruct (delivery_shape net req st) as [Hr Hcases].
    fold o in Hr, Hcases.
    split; [by rewrite Hr|]. split.
    + intros Hno.
      destruct Hcases as [(? & ? & _)|(b & m & ? & ? & -> & Hm & _)]; [done|].
      destruct Hno as [?|(b' & [= <-] & Hm')]; congruence.
    + intros pre p post Hsent.
      destruct Hcases
        as [(_ & Hnil & _)|(b & m & s' & ps & _ & _ & _ & _ & _ & Hs & Hl)].
      * rewrite Hnil in Hsent. by destruct pre.
      * destruct Hl as [Hl|[-> _]].
        -- rewrite Hl. apply (send_all_stops net ps 0). by rewrite <- Hs.
        -- rewrite Hs in Hsent. by destruct pre.
Qed.

Lemma C5_witness :
  let st : gmap string UserState :=
    {["111" := {| step := ASK_REASON; config := Some "2BHK"; budget := Some "50 75";
                  reason := None |}]} in
  let o := post_webhook (λ k, bool_decide (k = 0)) (Some (body_of (pressed "111" "RSN_SELF"))) st in
  let o' := post_webhook accepting (Some {| entry := Some [] |}) st in
  (status (response o) = 200 ∧
   ∃ p q, sent (world o) = [(p, true); (q, false)] ∧ logged o = [SendError q]) ∧
  (status (response o') = 200 ∧ state (world o') = st ∧ sent (world o') = []) ∧
  app_post accepting
    {| content_length := 4096; json := Some (body_of (pressed "111" "RSN_SELF")) |} st =
  handled (post_webhook accepting (Some (body_of (pressed "111" "RSN_SELF"))) st).
Proof.
  intros st o o'.
  pose proof (C5_always_acknowledged (λ k, bool_decide (k = 0))
                {| content_length := 4096; json := None |} st) as [_ H].
  pose proof (C5_always_acknowledged accepting
                {| content_length := 4096;
                   json := Some (body_of (pressed "111" "RSN_SELF")) |} st) as [Happ H'].
  split; [|split].
  - destruct (H (Some (body_of (pressed "111" "RSN_SELF")))) as (Hr & _ & Hfail).
    split; [exact (f_equal status Hr)|]. eexists _, _. split; [reflexivity|].
    exact (proj1 (proj2 (Hfail [_] _ [] eq_refl))).
  - destruct (H' (Some {| entry := Some [] |})) as (Hr & Hno & _).
    split; [exact (f_equal status Hr)|]. apply Hno. right. eexists. split; reflexivity.
  - reflexivity.
Defined.

(** C5 as it is written fails before the handler: a delivery whose body is
    one byte over 100kb is answered 413 by the body parser, and one whose
    body is not JSON is answered 400; neither is acknowledged with
    success. *)
Lemma C5_counterexample :
  app_post accepting
    {| content_length := 102401; json := Some (body_of (typed "111" "hi")) |} state0
  = refused 413 ∧
  app_post accepting {| content_length := 17; json := None |} state0 = refused 400.
Proof. split; reflexivity. Qed.

(** ** Sequences of deliveries *)

Lemma keeps_filled_refl u : keeps_filled u u.
Proof. by repeat split. Qed.

Lemma keeps_filled_trans u1 u2 u3 :
  keeps_filled u1 u2 → keeps_filled u2 u3 → keeps_filled u1 u3.
Proof. unfold keeps_filled. intros (? & ? & ?) (? & ? & ?). repeat split; auto. Qed.

Lemma valid_new_user : valid_user new_user.
Proof. by repeat split. Qed.

Lemma valid_current st waId : valid_store st → valid_user (current st waId).
Proof.
  intros Hv. unfold current. destruct (st !! waId) as [u|] eqn:E; cbn.
  - by apply (Hv waId).
  - apply valid_new_user.
Qed.

Lemma deliver_keeps st ev waId u :
  st !! waId = Some u →
  ∃ u', deliver st ev !! waId = Some u' ∧ keeps_filled u u'.
Proof.
  intros Hu. destruct ev as [net req]. unfold deliver; cbn [fst snd].
  destruct (delivery_shape net req st)
    as [_ [(-> & _)|(b & m & s' & ps & _ & _ & -> & Hk & _)]].
  - exists u. split; [done|apply keeps_filled_refl].
  - destruct (decide (from m = waId)) as [<-|Hne].
    + exists s'. rewrite lookup_insert_eq. split; [done|].
      unfold current in Hk. by rewrite Hu in Hk.
    + exists u. rewrite lookup_insert_ne by done. split; [done|apply keeps_filled_refl].
Qed.

Lemma deliver_valid st ev : valid_store st → valid_store (deliver st ev).
Proof.
  intros Hv. destruct ev as [net req]. unfold deliver; cbn [fst snd].
  destruct (delivery_shape net req st)
    as [_ [(-> & _)|(b & m & s' & ps & _ & _ & -> & _ & Hs' & _)]]; [done|].
  intros waId u. destruct (decide (from m = waId)) as [<-|Hne].
  - rewrite lookup_insert_eq. intros [= <-]. by apply Hs', valid_current.
  - rewrite lookup_insert_ne by done. apply Hv.
Qed.

Lemma run_keeps evs : ∀ st waId u,
  st !! waId = Some u →
  ∃ u', run evs st !! waId = Some u' ∧ keeps_filled u u'.
Proof.
  induction evs as [|ev evs IH]; intros st waId u Hu; cbn.
  - exists u. split; [done|apply keeps_filled_refl].
  - destruct (deliver_keeps st ev waId u Hu) as (u1 & H1 & Hk1).
    destruct (IH _ _ _ H1) as (u2 & H2 & Hk2).
    exists u2. split; [done|]. by apply keeps_filled_trans with u1.
Qed.

Lemma run_valid evs : ∀ st, valid_store st → valid_store (run evs st).
Proof.
  induction evs as [|ev evs IH]; intros st Hv; cbn; [done|].
  by apply IH, deliver_valid.
Qed.

(** C9. After any deliveries from the empty store: every stored field
    holds null or a value of its enumeration; the sender of a handled
    message has a state in the store; and a state that is in the store is
    still there after any further deliveries, with every field that was
    set still set (the greeting included: it assigns the step only). *)
Theorem C9_states_stay_and_fill evs :
  let st := run evs state0 in
  valid_store st ∧
  (∀ net b m, first_message b = Some m →
     is_Some (deliver st (net, Some b) !! from m)) ∧
  (∀ later waId u, st !! waId = Some u →
     ∃ u', run later st !! waId = Some u' ∧ keeps_filled u u').
Proof.
  intros st. split; [|split].
  - apply run_valid. intros waId u. unfold state0. by rewrite lookup_empty.
  - intros net b m Hm. unfold deliver; cbn [fst snd].
    destruct (delivery_of_message net b m (current st (from m)) Hm)
      as (s' & ps & lg & _ & _ & _ & Hall).
    destruct (Hall st eq_refl) as (_ & -> & _).
    rewrite lookup_insert_eq. by eexists.
  - intros later waId u Hu. by apply run_keeps.
Qed.

Lemma C9_witness :
  let st := run conversation state0 in
  st !! "111" =
    Some {| step := DONE; config := Some "2BHK"; budget := Some "50 75";
            reason := Some "Investment" |} ∧
  ∃ u', run [(accepting, Some (body_of (typed "111" "hi")))] st !! "111" = Some u' ∧
        is_Some (config u') ∧ is_Some (budget u') ∧ is_Some (reason u').
Proof.
  intros st.
  assert (Hu : st !! "111" =
    Some {| step := DONE; config := Some "2BHK"; budget := Some "50 75";
            reason := Some "Investment" |}) by (vm_compute; reflexivity).
  split; [exact Hu|].
  destruct (C9_states_stay_and_fill conversation) as (_ & _ & Hkeep).
  destruct (Hkeep [(accepting, Some (body_of (typed "111" "hi")))] "111" _ Hu)
    as (u' & Hu' & Hc & Hb & Hr).
  exists u'. split; [exact Hu'|].
  split; [|split]; [apply Hc|apply Hb|apply Hr]; by eexists.
Defined.

(** C10. A delivery whose message comes from [from m] leaves the entry of
    every other user as it was, and what it does is settled by the entry
    of [from m] alone: on two stores that agree there it answers, sends,
    prints and stores the same. *)
Theorem C10_only_the_sender_entry net b m st st' v :
  first_message b = Some m →
  let o := post_webhook net (Some b) st in
  let o' := post_webhook net (Some b) st' in
  (v ≠ from m → state (world o) !! v = st !! v) ∧
  (st' !! from m = st !! from m →
   response o' = response o ∧ sent (world o') = sent (world o) ∧
   logged o' = logged o ∧
   state (world o') !! from m = state (world o) !! from m).
Proof.
  intros Hm o o'.
  destruct (delivery_of_message net b m (current st (from m)) Hm)
    as (s' & ps & lg & _ & _ & _ & Hall).
  destruct (Hall st eq_refl) as (Hr & Hst & Hsent & Hlog).
  fold o in Hr, Hst, Hsent, Hlog.
  split.
  - intros Hne. rewrite Hst. by rewrite lookup_insert_ne.
  - intros Heq.
    destruct (Hall st') as (Hr' & Hst' & Hsent' & Hlog'); [unfold current; by rewrite Heq|].
    fold o' in Hr', Hst', Hsent', Hlog'.
    by rewrite Hr, Hr', Hst, Hst', !lookup_insert_eq, Hsent, Hsent', Hlog, Hlog'.
Qed.

Lemma C10_witness :
  let st : gmap string UserState :=
    {["222" := {| step := ASK_REASON; config := Some "3BHK"; budget := Some "1CR PLUS";
                  reason := None |}]} in
  let o := post_webhook accepting (Some (body_of (typed "111" "hello"))) st in
  state (world o) !! "222" = st !! "222".
Proof.
  intros st o.
  apply (C10_only_the_sender_entry accepting (body_of (typed "111" "hello"))
           (typed "111" "hello") st st "222").
  - reflexivity.
  - discriminate.
Defined.

(** ** Further properties of the handlers *)

(** Case analysis on a delivery that carries a message the handler can
    read: a property [Q] of the new state of the sender and of the
    payloads handed to [sendMessage] holds as soon as it holds on each
    branch of the handler. *)
Lemma delivery_cases_readable (net : nat → bool) b m cur
    (Q : UserState → list Payload → Prop) :
  first_message b = Some m →
  readable m = true →
  let u := from m in
  let txt := lower (incoming_text m) in
  let id := incoming_id m in
  let greeted := txt = "hi" ∨ txt = "hello" ∨ step cur = START in
  (greeted → Q (set_step MENU cur) [welcome u]) →
  (¬ greeted → txt = "callback" →
   Q (if net 0 then set_step LEAD_CAPTURE cur else cur) [callbackPrompt u]) →
  (¬ greeted → txt ≠ "callback" → id = Some "BTN_SEARCH" →
   Q (set_step ASK_CONFIG cur) [configList u]) →
  (¬ greeted → txt ≠ "callback" → id = Some "BTN_WHY" →
   Q cur [whyNivaara u; welcome u]) →
  (¬ greeted → txt ≠ "callback" → id = Some "BTN_EXPERT" →
   Q (set_step LEAD_CAPTURE cur) [expertPrompt u]) →
  (¬ greeted → txt ≠ "callback" → ∀ i, id = Some i → i ∈ config_ids →
   Q (set_step ASK_BUDGET (set_config (replace "CFG_" "" i) cur)) [budgetList u]) →
  (¬ greeted → txt ≠ "callback" → ∀ i, id = Some i → i ∈ budget_ids →
   Q (set_step ASK_REASON (set_budget (replaceAll "_" " " (replace "BUD_" "" i)) cur))
     [reasonButtons u]) →
  (¬ greeted → txt ≠ "callback" → ∀ i, id = Some i → i ∈ reason_ids →
   let s' := set_step DONE
               (set_reason (if (i =? "RSN_SELF")%string then "Self Use" else "Investment") cur) in
   Q s' [final u s'; welcome u]) →
  (¬ greeted → txt ≠ "callback" → (∀ i, id = Some i → i ∉ recognized_ids) →
   Q cur [fallbackPrompt u]) →
  ∃ s' ps,
    Q s' ps ∧
    ∀ st, current st u = cur →
      let o := post_webhook net (Some b) st in
      response o = sendStatus 200 ∧
      state (world o) = <[u := s']> st ∧
      (sent (world o), logged o) = send_all net 0 ps.
Proof.
  intros Hm Hread u txt id greeted Hmenu Hcb Hsearch Hwhy Hexpert Hcfg Hbud Hrsn Hdef.
  destruct (test_hi_hello (incoming_text m) || bool_decide (step cur = START)) eqn:H1.
  { exists (set_step MENU cur), [welcome u]. split.
    - by apply Hmenu, rule1_applies.
    - intros st <-. unfold post_webhook. rewrite (handle_rule1 net b m st Hm Hread H1).
      cbn [send_all]. by destruct (net 0). }
  assert (Hng : ¬ greeted).
  { apply rule1_skipped in H1. unfold greeted, txt. tauto. }
  destruct (test_callback (incoming_text m)) eqn:H2.
  { exists (if net 0 then set_step LEAD_CAPTURE cur else cur), [callbackPrompt u]. split.
    - by apply Hcb, test_callback_lower.
    - intros st <-. unfold post_webhook. rewrite (handle_rule2 net b m st Hm Hread H1 H2).
      cbn [send_all]. by destruct (net 0). }
  assert (Hncb : txt ≠ "callback") by by apply rule2_skipped.
  assert (Hrun : ∀ s' ps r,
            (∀ st, route net u u id {| state := <[u := cur]> st; sent := [] |} =
                   (r, {| state := <[u := s']> st; sent := (send_all net 0 ps).1 |})) →
            (send_all net 0 ps).2 = match r with inl e => [e] | inr _ => [] end →
            ∀ st, current st u = cur →
              let o := post_webhook net (Some b) st in
              response o = sendStatus 200 ∧
              state (world o) = <[u := s']> st ∧
              (sent (world o), logged o) = send_all net 0 ps).
  { intros s' ps r Hr Hl st <-. unfold post_webhook.
    rewrite (handle_rule3 net b m st Hm Hread H1 H2). fold u id. rewrite Hr.
    rewrite (surjective_pairing (send_all net 0 ps)), Hl. by destruct r. }
  assert (Hfall : (∀ i, id = Some i → i ∉ recognized_ids) →
            ∃ s' ps, Q s' ps ∧ ∀ st, current st u = cur →
              let o := post_webhook net (Some b) st in
              response o = sendStatus 200 ∧
              state (world o) = <[u := s']> st ∧
              (sent (world o), logged o) = send_all net 0 ps).
  { intros H. exists cur, [fallbackPrompt u]. split; [by apply Hdef|].
    destruct (net 0) eqn:E0.
    - apply (Hrun _ _ (inr tt)); [|by cbn [send_all]; rewrite E0].
      intros st. rewrite (route_default net u cur st id H).
      cbn [send_all]. by rewrite E0.
    - apply (Hrun _ _ (inl (SendError (fallbackPrompt u)))); [|by cbn [send_all]; rewrite E0].
      intros st. rewrite (route_default net u cur st id H).
      cbn [send_all]. by rewrite E0. }
  destruct id as [i|] eqn:Hid; [|by apply Hfall].
  destruct (decide (i ∈ recognized_ids)) as [Hin|Hout];
    [|by apply Hfall; intros ? [= <-]].
  clear Hfall Hdef.
  assert (Hone : ∀ s' p,
            (∀ st, route net u u (Some i) {| state := <[u := cur]> st; sent := [] |} =
                   (if net 0 then inr tt else inl (SendError p),
                    {| state := <[u := s']> st; sent := [(p, net 0)] |})) →
            Q s' [p] →
            ∃ s' ps, Q s' ps ∧ ∀ st, current st u = cur →
              let o := post_webhook net (Some b) st in
              response o = sendStatus 200 ∧
              state (world o) = <[u := s']> st ∧
              (sent (world o), logged o) = send_all net 0 ps).
  { intros s' p Hr HQ. exists s', [p]. split; [done|].
    destruct (net 0) eqn:E0.
    - apply (Hrun _ _ (inr tt)); [|by cbn [send_all]; rewrite E0].
      intros st. rewrite Hr. cbn [send_all]. by rewrite E0.
    - apply (Hrun _ _ (inl (SendError p))); [|by cbn [send_all]; rewrite E0].
      intros st. rewrite Hr. cbn [send_all]. by rewrite E0. }
  assert (Htwo : ∀ s' p q,
            (∀ st, route net u u (Some i) {| state := <[u := cur]> st; sent := [] |} =
                   if net 0
                   then (if net 1 then inr tt else inl (SendError q),
                         {| state := <[u := s']> st; sent := [(p, true); (q, net 1)] |})
                   else (inl (SendError p),
                         {| state := <[u := s']> st; sent := [(p, false)] |})) →
            Q s' [p; q] →
            ∃ s' ps, Q s' ps ∧ ∀ st, current st u = cur →
              let o := post_webhook net (Some b) st in
              response o = sendStatus 200 ∧
              state (world o) = <[u := s']> st ∧
              (sent (world o), logged o) = send_all net 0 ps).
  { intros s' p q Hr HQ. exists s', [p; q]. split; [done|].
    destruct (net 0) eqn:E0; [destruct (net 1) eqn:E1|].
    - apply (Hrun _ _ (inr tt)); [|by cbn [send_all]; rewrite E0, E1].
      intros st. rewrite Hr. cbn [send_all]. by rewrite E0, E1.
    - apply (Hrun _ _ (inl (SendError q))); [|by cbn [send_all]; rewrite E0, E1].
      intros st. rewrite Hr. cbn [send_all]. by rewrite E0, E1.
    - apply (Hrun _ _ (inl (SendError p))); [|by cbn [send_all]; rewrite E0].
      intros st. rewrite Hr. cbn [send_all]. by rewrite E0. }
  unfold recognized_ids in Hin.
  apply elem_of_app in Hin as [Hin|Hin]; [|apply elem_of_app in Hin as [Hin|Hin];
    [|apply elem_of_app in Hin as [Hin|Hin]]].
  - each_of Hin.
    + apply (Hone _ _ (route_search net u cur)). by apply Hsearch.
    + apply (Htwo _ _ _ (route_why net u cur)). by apply Hwhy.
    + apply (Hone _ _ (route_expert net u cur)). by apply Hexpert.
  - apply (Hone _ _ (λ st, route_config net u cur st i Hin)). by apply Hcfg.
  - apply (Hone _ _ (λ st, route_budget net u cur st i Hin)). by apply Hbud.
  - apply (Htwo _ _ _ (λ st, route_reason net u cur st i Hin)). by apply Hrsn.
Qed.

(** The same for every message: on one the handler cannot read, the
    state of the sender is as [getUserState] hands it out, nothing is
    sent and a [TypeError] is printed. *)
Lemma delivery_cases (net : nat → bool) b m cur (Q : UserState → list Payload → Prop) :
  first_message b = Some m →
  let u := from m in
  let txt := lower (incoming_text m) in
  let id := incoming_id m in
  let greeted := txt = "hi" ∨ txt = "hello" ∨ step cur = START in
  (readable m = false → Q cur []) →
  (readable m = true → greeted → Q (set_step MENU cur) [welcome u]) →
  (readable m = true → ¬ greeted → txt = "callback" →
   Q (if net 0 then set_step LEAD_CAPTURE cur else cur) [callbackPrompt u]) →
  (readable m = true → ¬ greeted → txt ≠ "callback" → id = Some "BTN_SEARCH" →
   Q (set_step ASK_CONFIG cur) [configList u]) →
  (readable m = true → ¬ greeted → txt ≠ "callback" → id = Some "BTN_WHY" →
   Q cur [whyNivaara u; welcome u]) →
  (readable m = true → ¬ greeted → txt ≠ "callback" → id = Some "BTN_EXPERT" →
   Q (set_step LEAD_CAPTURE cur) [expertPrompt u]) →
  (readable m = true → ¬ greeted → txt ≠ "callback" → ∀ i, id = Some i → i ∈ config_ids →
   Q (set_step ASK_BUDGET (set_config (replace "CFG_" "" i) cur)) [budgetList u]) →
  (readable m = true → ¬ greeted → txt ≠ "callback" → ∀ i, id = Some i → i ∈ budget_ids →
   Q (set_step ASK_REASON (set_budget (replaceAll "_" " " (replace "BUD_" "" i)) cur))
     [reasonButtons u]) →
  (readable m = true → ¬ greeted → txt ≠ "callback" → ∀ i, id = Some i → i ∈ reason_ids →
   let s' := set_step DONE
               (set_reason (if (i =? "RSN_SELF")%string then "Self Use" else "Investment") cur) in
   Q s' [final u s'; welcome u]) →
  (readable m = true → ¬ greeted → txt ≠ "callback" → (∀ i, id = Some i → i ∉ recognized_ids) →
   Q cur [fallbackPrompt u]) →
  ∃ s' ps,
    Q s' ps ∧
    ∀ st, current st u = cur →
      let o := post_webhook net (Some b) st in
      response o = sendStatus 200 ∧
      state (world o) = <[u := s']> st ∧
      sent (world o) = (send_all net 0 ps).1 ∧
      logged o = if readable m then (send_all net 0 ps).2 else [TypeError].
Proof.
  intros Hm u txt id greeted Hun Hmenu Hcb Hsearch Hwhy Hexpert Hcfg Hbud Hrsn Hdef.
  destruct (readable m) eqn:Hr.
  - specialize (Hmenu eq_refl). specialize (Hcb eq_refl). specialize (Hsearch eq_refl).
    specialize (Hwhy eq_refl). specialize (Hexpert eq_refl). specialize (Hcfg eq_refl).
    specialize (Hbud eq_refl). specialize (Hrsn eq_refl). specialize (Hdef eq_refl).
    destruct (delivery_cases_readable net b m cur Q Hm Hr)
      as (s' & ps & HQ & Hrun); try assumption.
    exists s', ps. split; [done|]. intros st Hc.
    destruct (Hrun st Hc) as (H1 & H2 & H3).
    repeat split; [done|done|by rewrite <- H3|by rewrite <- H3].
  - exists cur, []. split; [by apply Hun|]. intros st <-.
    unfold post_webhook. by rewrite (handle_unreadable net b m st Hm Hr).
Qed.


Lemma send_all_length net ps : ∀ k,
  (length (send_all net k ps).1 ≤ length ps)%nat ∧
  (ps ≠ [] → (1 ≤ length (send_all net k ps).1)%nat).
Proof.
  induction ps as [|p ps IH]; intros k; cbn [send_all].
  - split; [done|congruence].
  - destruct (net k); cbn [fst length].
    + destruct (IH (S k)) as [Hle _]. split; [lia|intros _; lia].
    + split; [lia|intros _; lia].
Qed.

Lemma send_all_elem net ps : ∀ k p ok,
  (p, ok) ∈ (send_all net k ps).1 → p ∈ ps.
Proof.
  induction ps as [|q ps IH]; intros k p ok; cbn [send_all].
  - intros H. by apply elem_of_nil in H.
  - destruct (net k); cbn [fst]; intros H.
    + apply elem_of_cons in H as [[= -> _]|H]; [apply list_elem_of_here|].
      apply list_elem_of_further. by apply (IH (S k) p ok).
    + apply elem_of_cons in H as [[= -> _]|H]; [apply list_elem_of_here|].
      by apply elem_of_nil in H.
Qed.

Lemma send_all_logged net ps : ∀ k,
  (length (send_all net k ps).2 ≤ 1)%nat ∧
  ((send_all net k ps).2 = [] ↔ Forall (λ a, a.2 = true) (send_all net k ps).1).
Proof.
  induction ps as [|p ps IH]; intros k; cbn [send_all].
  - split; [cbn; lia|]. split; [constructor|done].
  - destruct (net k); cbn [fst snd].
    + destruct (IH (S k)) as [Hle Hiff]. split; [done|].
      rewrite Hiff. split.
      * intros H. by constructor.
      * intros H. by inversion H.
    + split; [cbn; lia|]. split; [done|].
      intros H. inversion H as [|? ? Hf _]. discriminate Hf.
Qed.

(** X1. A delivery that carries a message calls [sendMessage] at most
    twice, and at least once exactly when the handler can read the
    message; every payload it hands over is addressed to the sender of
    the message, for the product "whatsapp". *)
Theorem replies_go_to_the_sender net b m st :
  first_message b = Some m →
  let o := post_webhook net (Some b) st in
  (length (sent (world o)) ≤ 2)%nat ∧
  (readable m = true ↔ (1 ≤ length (sent (world o)))%nat) ∧
  ∀ p ok, (p, ok) ∈ sent (world o) →
    to p = from m ∧ messaging_product p = "whatsapp".
Proof.
  intros Hm o.
  destruct (delivery_cases net b m (current st (from m))
              (λ _ ps, (readable m = true ↔ ps ≠ []) ∧ (length ps ≤ 2)%nat ∧
                       Forall (λ p, to p = from m ∧ messaging_product p = "whatsapp") ps) Hm)
    as (s' & ps & (Hne & Hlen & Hall) & Hrun);
    try solve [ intros Hr; intros; cbv zeta; split; [by split|]; split; [cbn; lia|];
                repeat constructor ].
  { intros Hr. split; [by rewrite Hr|]. split; [cbn; lia|constructor]. }
  destruct (Hrun st eq_refl) as (_ & _ & Hsent & _). fold o in Hsent.
  rewrite Hsent. destruct (send_all_length net ps 0) as [Hle Hge]. split; [lia|]. split.
  - rewrite Hne. split; [apply Hge|].
    intros H ->. cbn in H. lia.
  - intros p ok Hin. apply send_all_elem in Hin.
    by apply (proj1 (Forall_forall _ _) Hall).
Qed.

Lemma replies_go_to_the_sender_witness :
  let st : gmap string UserState :=
    {["111" := {| step := ASK_REASON; config := Some "2BHK"; budget := Some "50 75";
                  reason := None |};
      "222" := new_user ]} in
  let o := post_webhook accepting (Some (body_of (pressed "111" "RSN_SELF"))) st in
  length (sent (world o)) = 2 ∧
  ∀ p ok, (p, ok) ∈ sent (world o) → to p = "111" ∧ messaging_product p = "whatsapp".
Proof.
  intros st o. split; [reflexivity|].
  apply (replies_go_to_the_sender accepting (body_of (pressed "111" "RSN_SELF"))
           (pressed "111" "RSN_SELF") st).
  reflexivity.
Defined.

(** A delivery either leaves the store as it is (no message), or rewrites
    the entry of the sender of its message with a state for which [Q]
    holds, [Q] being established branch by branch. *)
Lemma deliver_cases st ev (Q : Message → UserState → Prop) :
  (∀ b m, ev.2 = Some b → first_message b = Some m →
     ∃ s', Q m s' ∧ deliver st ev = <[from m := s']> st) →
  deliver st ev = st ∨
  ∃ m s', (ev.2 ≫= first_message) = Some m ∧ Q m s' ∧ deliver st ev = <[from m := s']> st.
Proof.
  intros H. destruct ev as [net [b|]]; cbn [fst snd] in *; [|by left].
  destruct (first_message b) as [m|] eqn:Hm.
  - right. destruct (H b m eq_refl Hm) as (s' & HQ & Hs). exists m, s'.
    split; [exact Hm|done].
  - left. unfold deliver, post_webhook, handle; cbn [fst snd]. by rewrite Hm.
Qed.

Lemma delivered_state_past_START net b m st :
  first_message b = Some m →
  ∃ s', (readable m = true → step s' ≠ START) ∧
        (step (current st (from m)) ≠ START → step s' ≠ START) ∧
        (readable m = false → s' = current st (from m)) ∧
        state (world (post_webhook net (Some b) st)) = <[from m := s']> st.
Proof.
  intros Hm.
  destruct (delivery_cases net b m (current st (from m))
              (λ s' _, (readable m = true → step s' ≠ START) ∧
                       (step (current st (from m)) ≠ START → step s' ≠ START) ∧
                       (readable m = false → s' = current st (from m))) Hm)
    as (s' & ps & HQ & Hrun);
    try solve [ intros Hr; intros; cbv zeta; cbn [set_step step];
                split; [|split]; [done|done|by rewrite Hr] ].
  - intros Hr. split; [by rewrite Hr|]. by split.
  - intros Hr Hng _. destruct (net 0); cbn [set_step step];
      (split; [|split]; [|done|by rewrite Hr]); intros _; first [done | tauto].
  - intros Hr Hng _ _. split; [|split]; [|done|by rewrite Hr]. intros _; tauto.
  - intros Hr Hng _ _. split; [|split]; [|done|by rewrite Hr]. intros _; tauto.
  - exists s'. destruct HQ as (H1 & H2 & H3). repeat split; try done.
    by destruct (Hrun st eq_refl) as (_ & -> & _).
Qed.

(** X2. START is left for good at the first message the handler can read.
    The sender of a readable message is never left at START, whatever the
    message and the outcome of the calls; a message that cannot be read
    leaves the sender with the state [getUserState] hands out, START for
    a new sender; and a user whose step is not START is never at START
    again, whatever is delivered afterwards. *)
Theorem START_is_left_for_good :
  (∀ net b m st, first_message b = Some m → readable m = true →
     ∃ s, state (world (post_webhook net (Some b) st)) !! from m = Some s ∧
          step s ≠ START) ∧
  (∀ net b m st, first_message b = Some m → readable m = false →
     state (world (post_webhook net (Some b) st)) =
     <[from m := default {| step := START; config := None; budget := None;
                            reason := None |} (st !! from m)]> st) ∧
  (∀ evs st waId s, st !! waId = Some s → step s ≠ START →
     ∃ s', run evs st !! waId = Some s' ∧ step s' ≠ START).
Proof.
  split; [|split].
  - intros net b m st Hm Hr.
    destruct (delivered_state_past_START net b m st Hm) as (s' & Hs & _ & _ & ->).
    exists s'. rewrite lookup_insert_eq. by split; [|apply Hs].
  - intros net b m st Hm Hr.
    destruct (delivered_state_past_START net b m st Hm) as (s' & _ & _ & Hs & ->).
    by rewrite (Hs Hr).
  - induction evs as [|ev evs IH]; intros st waId s Hs Hstep; cbn; [by exists s|].
    destruct (deliver_cases st ev
                (λ m s', step (current st (from m)) ≠ START → step s' ≠ START))
      as [->|(m & s' & _ & Hs' & ->)].
    + intros b m Hb Hm. destruct ev as [net req]; cbn [snd] in Hb; subst req.
      destruct (delivered_state_past_START net b m st Hm) as (s' & _ & H & _ & Heq).
      by exists s'.
    + by apply (IH st waId s).
    + destruct (decide (from m = waId)) as [<-|Hne].
      * apply (IH _ (from m) s'); [apply lookup_insert_eq|].
        apply Hs'. by rewrite (current_Some st _ s Hs).
      * apply (IH _ waId s); [by rewrite lookup_insert_ne|done].
Qed.

Lemma START_is_left_for_good_witness :
  ∃ s, state (world (post_webhook rejecting (Some (body_of (typed "111" "callback"))) state0))
         !! "111" = Some s ∧ step s ≠ START.
Proof.
  apply (proj1 START_is_left_for_good rejecting
           (body_of (typed "111" "callback")) (typed "111" "callback") state0);
    reflexivity.
Defined.

(** X3. A selection changes only through an option of its own list: when
    the configuration of the sender differs after a delivery, the message
    carried a CFG_ identifier and the new value is its suffix; likewise
    for the budget and BUD_, for the reason and RSN_.  In particular a
    typed text (a greeting, the callback command, anything else) changes
    none of the three. *)
Theorem selections_change_only_by_their_option net b m st :
  first_message b = Some m →
  let cur := current st (from m) in
  let new := current (state (world (post_webhook net (Some b) st))) (from m) in
  (config new ≠ config cur →
     ∃ i, incoming_id m = Some i ∧ i ∈ config_ids ∧
          config new = Some (replace "CFG_" "" i)) ∧
  (budget new ≠ budget cur →
     ∃ i, incoming_id m = Some i ∧ i ∈ budget_ids ∧
          budget new = Some (replaceAll "_" " " (replace "BUD_" "" i))) ∧
  (reason new ≠ reason cur →
     ∃ i, incoming_id m = Some i ∧ i ∈ reason_ids ∧
          reason new = Some (if decide (i = "RSN_SELF") then "Self Use" else "Investment")).
Proof.
  intros Hm cur new.
  destruct (delivery_cases net b m cur
              (λ s' _,
                 (config s' ≠ config cur →
                    ∃ i, incoming_id m = Some i ∧ i ∈ config_ids ∧
                         config s' = Some (replace "CFG_" "" i)) ∧
                 (budget s' ≠ budget cur →
                    ∃ i, incoming_id m = Some i ∧ i ∈ budget_ids ∧
                         budget s' = Some (replaceAll "_" " " (replace "BUD_" "" i))) ∧
                 (reason s' ≠ reason cur →
                    ∃ i, incoming_id m = Some i ∧ i ∈ reason_ids ∧
                         reason s' = Some (if decide (i = "RSN_SELF")
                                           then "Self Use" else "Investment"))) Hm)
    as (s' & ps & HQ & Hrun);
    try solve [ intros; cbv zeta; cbn [set_step set_config set_budget set_reason
                                        step config budget reason];
                repeat split; intros Hne; first [done | eauto] ].
  - intros _ _ _. destruct (net 0); cbn [set_step config budget reason];
      repeat split; intros Hne; done.
  - intros _ _ _ i Hi Hin. cbv zeta.
    cbn [set_step set_reason step config budget reason].
    repeat split; intros Hne; try done.
    exists i. repeat split; try done.
    unfold reason_ids in Hin. each_of Hin; reflexivity.
  - destruct (Hrun st eq_refl) as (_ & Hst & _).
    assert (Hnew : new = s').
    { unfold new, current. by rewrite Hst, lookup_insert_eq. }
    by rewrite Hnew.
Qed.

Lemma selections_change_only_by_their_option_witness :
  let st : gmap string UserState :=
    {["111" := {| step := DONE; config := Some "2BHK"; budget := Some "50 75";
                  reason := Some "Investment" |}]} in
  let new := current (state (world (post_webhook accepting
                        (Some (body_of (typed "111" "hi"))) st))) "111" in
  config new = Some "2BHK" ∧ budget new = Some "50 75" ∧ reason new = Some "Investment".
Proof.
  intros st new.
  destruct (selections_change_only_by_their_option accepting
              (body_of (typed "111" "hi")) (typed "111" "hi") st eq_refl)
    as (Hc & Hb & Hr).
  split; [|split].
  - destruct (decide (config new = config (current st "111"))) as [E|E]; [exact E|].
    destruct (Hc E) as (i & Hi & _). discriminate Hi.
  - destruct (decide (budget new = budget (current st "111"))) as [E|E]; [exact E|].
    destruct (Hb E) as (i & Hi & _). discriminate Hi.
  - destruct (decide (reason new = reason (current st "111"))) as [E|E]; [exact E|].
    destruct (Hr E) as (i & Hi & _). discriminate Hi.
Defined.

Lemma route_state_any_net net net' u cur st incomingId :
  state (route net u u incomingId {| state := <[u := cur]> st; sent := [] |}).2 =
  state (route net' u u incomingId {| state := <[u := cur]> st; sent := [] |}).2.
Proof.
  assert (Hdefault : (∀ id, incomingId = Some id → id ∉ recognized_ids) →
    state (route net u u incomingId {| state := <[u := cur]> st; sent := [] |}).2 =
    state (route net' u u incomingId {| state := <[u := cur]> st; sent := [] |}).2).
  { intros H. by rewrite !(route_default _ u cur st incomingId H). }
  destruct incomingId as [id|]; [|by apply Hdefault].
  destruct (decide (id ∈ recognized_ids)) as [Hin|Hout];
    [|by apply Hdefault; intros ? [= <-]].
  clear Hdefault. unfold recognized_ids in Hin.
  apply elem_of_app in Hin as [Hin|Hin]; [|apply elem_of_app in Hin as [Hin|Hin];
    [|apply elem_of_app in Hin as [Hin|Hin]]].
  - each_of Hin.
    + by rewrite !route_search.
    + rewrite !route_why. by destruct (net 0), (net' 0).
    + by rewrite !route_expert.
  - by rewrite !(route_config _ u cur st id Hin).
  - by rewrite !(route_budget _ u cur st id Hin).
  - rewrite !(route_reason _ u cur st id Hin). by destruct (net 0), (net' 0).
Qed.

(** X4. Apart from the callback command, what a delivery stores does not
    depend on the outcome of its calls of [sendMessage]: every other
    branch assigns before it sends, so a rejected call loses no selection
    and no step. *)
Theorem stored_state_ignores_rejected_sends net net' b m st :
  first_message b = Some m →
  lower (incoming_text m) ≠ "callback" ∨ step (current st (from m)) = START →
  state (world (post_webhook net (Some b) st)) =
  state (world (post_webhook net' (Some b) st)).
Proof.
  intros Hm Hcb. unfold post_webhook.
  destruct (readable m) eqn:Hr;
    [|by rewrite !(handle_unreadable _ b m st Hm Hr)].
  destruct (test_hi_hello (incoming_text m)
            || bool_decide (step (current st (from m)) = START)) eqn:H1.
  { rewrite !(handle_rule1 _ b m st Hm Hr H1). by destruct (net 0), (net' 0). }
  destruct (test_callback (incoming_text m)) eqn:H2.
  { apply rule1_skipped in H1. apply test_callback_lower in H2. tauto. }
  rewrite !(handle_rule3 _ b m st Hm Hr H1 H2).
  pose proof (route_state_any_net net net' (from m) (current st (from m)) st (incoming_id m))
    as Heq.
  destruct (route net _ _ _ _) as [[e|[]] w], (route net' _ _ _ _) as [[e'|[]] w'];
    exact Heq.
Qed.

Lemma stored_state_ignores_rejected_sends_witness :
  let st : gmap string UserState :=
    {["111" := {| step := ASK_CONFIG; config := None; budget := None; reason := None |}]} in
  state (world (post_webhook rejecting (Some (body_of (picked "111" "CFG_3BHK"))) st)) !! "111"
  = Some {| step := ASK_BUDGET; config := Some "3BHK"; budget := None; reason := None |}.
Proof.
  intros st.
  rewrite (stored_state_ignores_rejected_sends rejecting accepting
             (body_of (picked "111" "CFG_3BHK")) (picked "111" "CFG_3BHK") st eq_refl).
  - reflexivity.
  - left. discriminate.
Defined.

(** X5. From a state whose step is not START, the button BTN_SEARCH sets
    the step to ASK_CONFIG, keeps the three selections, and sends the
    list of configurations, whose rows carry the four CFG_ identifiers
    the handler has a case for. *)
Theorem search_button_asks_configuration net b m st :
  first_message b = Some m →
  incoming_id m = Some "BTN_SEARCH" →
  step (current st (from m)) ≠ START →
  let cur := current st (from m) in
  let o := post_webhook net (Some b) st in
  response o = sendStatus 200 ∧
  state (world o) =
    <[from m := {| step := ASK_CONFIG; config := config cur; budget := budget cur;
                   reason := reason cur |}]> st ∧
  (∃ p, sent (world o) = [(p, net 0)] ∧ to p = from m ∧
        map id_ (choices_of p) = config_ids ∧
        map title (choices_of p) = ["1 BHK"; "2 BHK"; "3 BHK"; "4+ BHK"]).
Proof.
  intros Hm Hid Hs cur o. unfold o.
  rewrite (post_reply net b m st _ Hm Hid Hs), route_search.
  destruct (net 0); (split; [done|]); (split; [done|]);
    by exists (configList (from m)).
Qed.

Lemma search_button_asks_configuration_witness :
  let st : gmap string UserState := {["111" := set_step MENU new_user]} in
  let o := post_webhook accepting (Some (body_of (pressed "111" "BTN_SEARCH"))) st in
  state (world o) !! "111" = Some (set_step ASK_CONFIG new_user) ∧
  sent (world o) = [(configList "111", true)].
Proof.
  intros st o.
  destruct (search_button_asks_configuration accepting
              (body_of (pressed "111" "BTN_SEARCH")) (pressed "111" "BTN_SEARCH") st)
    as (_ & Hst & _); [reflexivity|reflexivity|discriminate|].
  split; [|reflexivity]. unfold o. rewrite Hst. apply lookup_insert_eq.
Defined.

(** X6. From a state whose step is not START, the button BTN_WHY changes
    nothing in the store: the sender is sent the text on Nivaara and,
    when that call is accepted, the main menu after it; when it is
    rejected the menu is not sent. *)
Theorem why_button_informs_only net b m st :
  first_message b = Some m →
  incoming_id m = Some "BTN_WHY" →
  step (current st (from m)) ≠ START →
  let nl := String "010"%char "" in
  let o := post_webhook net (Some b) st in
  response o = {| status := 200; body := Some "OK" |} ∧
  state (world o) = st ∧
  sent (world o) =
    ({| messaging_product := "whatsapp";
       to := from m;
       content := text_out
         ("✅ *Why choose Nivaara?*" +:+ nl +:+
          "• Comprehensive real estate consultancy across residential, commercial, land and investment deals." +:+ nl +:+
          "• Operates pan‑India and internationally, with a base in Pune and deep market expertise【222220955652304†L43-L47】." +:+ nl +:+
          "• End‑to‑end service: from search to paperwork, we manage everything【222220955652304†L94-L110】." +:+ nl +:+
          "• Trust & transparency with verified properties and honest guidance【222220955652304†L94-L110】." +:+ nl +:+
          nl +:+ "Tap *Search Property* to explore listings or *Talk to Expert* for personalised advice.") |},
     net 0) ::
    (if net 0
     then [({| messaging_product := "whatsapp";
              to := from m;
              content := interactive_out (button
                ("👋 Hi! Welcome to *Nivaara Realty* 🏡" +:+ nl +:+ nl +:+
                 "We simplify your real estate journey across Pune and beyond." +:+ nl +:+
                 "Please choose an option below to get started ⬇️")
                [ {| id_ := "BTN_SEARCH"; title := "Search Property" |};
                  {| id_ := "BTN_WHY"; title := "Why Nivaara?" |};
                  {| id_ := "BTN_EXPERT"; title := "Talk to Expert" |} ]) |},
            net 1)]
     else []).
Proof.
  intros Hm Hid Hs nl o. unfold o.
  rewrite (post_reply net b m st _ Hm Hid Hs), route_why.
  rewrite (insert_current st (from m) Hs).
  destruct (net 0); [destruct (net 1)|]; done.
Qed.

Lemma why_button_informs_only_witness :
  let nl := String "010"%char "" in
  let st : gmap string UserState :=
    {["111" := {| step := ASK_BUDGET; config := Some "1BHK"; budget := None;
                  reason := None |}]} in
  let o := post_webhook accepting (Some (body_of (pressed "111" "BTN_WHY"))) st in
  state (world o) = st ∧
  sent (world o) =
    [ ({| messaging_product := "whatsapp";
          to := "111";
          content := text_out
            ("✅ *Why choose Nivaara?*" +:+ nl +:+
             "• Comprehensive real estate consultancy across residential, commercial, land and investment deals." +:+ nl +:+
             "• Operates pan‑India and internationally, with a base in Pune and deep market expertise【222220955652304†L43-L47】." +:+ nl +:+
             "• End‑to‑end service: from search to paperwork, we manage everything【222220955652304†L94-L110】." +:+ nl +:+
             "• Trust & transparency with verified properties and honest guidance【222220955652304†L94-L110】." +:+ nl +:+
             nl +:+ "Tap *Search Property* to explore listings or *Talk to Expert* for personalised advice.") |},
       true);
      ({| messaging_product := "whatsapp";
          to := "111";
          content := interactive_out (button
            ("👋 Hi! Welcome to *Nivaara Realty* 🏡" +:+ nl +:+ nl +:+
             "We simplify your real estate journey across Pune and beyond." +:+ nl +:+
             "Please choose an option below to get started ⬇️")
            [ {| id_ := "BTN_SEARCH"; title := "Search Property" |};
              {| id_ := "BTN_WHY"; title := "Why Nivaara?" |};
              {| id_ := "BTN_EXPERT"; title := "Talk to Expert" |} ]) |},
       true) ].
Proof.
  intros nl st o.
  destruct (why_button_informs_only accepting
              (body_of (pressed "111" "BTN_WHY")) (pressed "111" "BTN_WHY") st)
    as (_ & Hst & Hsent); [reflexivity|reflexivity|discriminate|].
  split; [exact Hst|exact Hsent].
Defined.

(** X7. From a state whose step is not START, the button BTN_EXPERT sets
    the step to LEAD_CAPTURE and sends the sender the request for name,
    area and budget.  The step is assigned before the call, so it is
    LEAD_CAPTURE also when the call is rejected. *)
Theorem expert_button_captures_lead net b m st :
  first_message b = Some m →
  incoming_id m = Some "BTN_EXPERT" →
  step (current st (from m)) ≠ START →
  let cur := current st (from m) in
  let o := post_webhook net (Some b) st in
  response o = {| status := 200; body := Some "OK" |} ∧
  state (world o) =
    <[from m := {| step := LEAD_CAPTURE; config := config cur; budget := budget cur;
                   reason := reason cur |}]> st ∧
  sent (world o) =
    [({| messaging_product := "whatsapp";
        to := from m;
        content := text_out
          ("📞 Sure — please share your *Name + Preferred Area + Budget* and we’ll call you.") |},
      net 0)].
Proof.
  intros Hm Hid Hs cur o. unfold o.
  rewrite (post_reply net b m st _ Hm Hid Hs), route_expert.
  by destruct (net 0).
Qed.

Lemma expert_button_captures_lead_witness :
  let st : gmap string UserState :=
    {["111" := {| step := MENU; config := None; budget := None; reason := None |}]} in
  let o := post_webhook rejecting (Some (body_of (pressed "111" "BTN_EXPERT"))) st in
  state (world o) !! "111" =
    Some {| step := LEAD_CAPTURE; config := None; budget := None; reason := None |} ∧
  sent (world o) =
    [({| messaging_product := "whatsapp";
        to := "111";
        content := text_out
          ("📞 Sure — please share your *Name + Preferred Area + Budget* and we’ll call you.") |},
      false)].
Proof.
  intros st o.
  destruct (expert_button_captures_lead rejecting
              (body_of (pressed "111" "BTN_EXPERT")) (pressed "111" "BTN_EXPERT") st)
    as (_ & Hst & Hsent); [reflexivity|reflexivity|discriminate|].
  split; [|exact Hsent]. unfold o. rewrite Hst. apply lookup_insert_eq.
Defined.

(** X8. The prompts and the [switch] agree.  For a sender whose step is
    not START, a reply is answered with the fallback prompt exactly when
    its identifier is offered by none of the four prompts (main menu,
    configurations, budgets, reasons): every option the bot offers has
    its case, and no case is without an option. *)
Theorem fallback_iff_not_offered net b m st id :
  first_message b = Some m →
  incoming_id m = Some id →
  step (current st (from m)) ≠ START →
  let o := post_webhook net (Some b) st in
  sent (world o) = [(fallbackPrompt (from m), net 0)] ↔ id ∉ offered_ids (from m).
Proof.
  intros Hm Hid Hs o. unfold o.
  rewrite (post_reply net b m st _ Hm Hid Hs).
  change (offered_ids (from m)) with recognized_ids.
  split.
  - intros Hsent Hin. unfold recognized_ids in Hin.
    apply elem_of_app in Hin as [Hin|Hin]; [|apply elem_of_app in Hin as [Hin|Hin];
      [|apply elem_of_app in Hin as [Hin|Hin]]].
    + each_of Hin.
      * rewrite route_search in Hsent.
        destruct (net 0); [destruct (net 1)|]; cbv in Hsent; discriminate Hsent.
      * rewrite route_why in Hsent.
        destruct (net 0); [destruct (net 1)|]; cbv in Hsent; discriminate Hsent.
      * rewrite route_expert in Hsent.
        destruct (net 0); [destruct (net 1)|]; cbv in Hsent; discriminate Hsent.
    + rewrite (route_config net _ _ st id Hin) in Hsent.
        destruct (net 0); [destruct (net 1)|]; cbv in Hsent; discriminate Hsent.
    + rewrite (route_budget net _ _ st id Hin) in Hsent.
        destruct (net 0); [destruct (net 1)|]; cbv in Hsent; discriminate Hsent.
    + rewrite (route_reason net _ _ st id Hin) in Hsent.
        destruct (net 0); [destruct (net 1)|]; cbv in Hsent; discriminate Hsent.
  - intros Hout. rewrite route_default by (by intros ? [= <-]).
    by destruct (net 0).
Qed.

Lemma fallback_iff_not_offered_witness :
  let st : gmap string UserState := {["111" := set_step MENU new_user]} in
  sent (world (post_webhook accepting (Some (body_of (pressed "111" "BTN_BUY"))) st))
  = [(fallbackPrompt "111", true)].
Proof.
  intros st.
  apply (fallback_iff_not_offered accepting (body_of (pressed "111" "BTN_BUY"))
           (pressed "111" "BTN_BUY") st "BTN_BUY");
    [reflexivity|reflexivity|discriminate|].
  rewrite list_elem_of_In. cbn. intros H.
  repeat destruct H as [H|H]; try discriminate H. exact H.
Defined.

(** A reply delivered on a store that holds [s] for its sender. *)
Lemma post_reply_on net u s st b m id :
  first_message b = Some m →
  from m = u →
  incoming_id m = Some id →
  step s ≠ START →
  post_webhook net (Some b) (<[u := s]> st) =
  match route net u u (Some id) {| state := <[u := s]> st; sent := [] |} with
  | (inl e, w) => {| response := sendStatus 200; world := w; logged := [e] |}
  | (inr _, w) => {| response := sendStatus 200; world := w; logged := [] |}
  end.
Proof.
  intros Hm <- Hid Hs.
  assert (Hcur : current (<[from m := s]> st) (from m) = s).
  { unfold current. by rewrite lookup_insert_eq. }
  rewrite (post_reply net b m _ id Hm Hid) by by rewrite Hcur.
  by rewrite Hcur, insert_insert_eq.
Qed.

(** X9. The whole flow.  From any store, for any user and whatever the
    outcomes of the calls: a greeting, then BTN_SEARCH, a configuration,
    a budget and a reason leave the user at DONE with exactly these three
    selections, whatever was stored for the user before, and every other
    entry as it was.  When the calls are accepted the user is sent, in
    this order, the menu with its three buttons, the list of
    configurations, the list of price ranges, the two reason buttons, the
    summary that names the three selections, and the menu again. *)
Theorem complete_flow_stores_the_three_selections
    (n1 n2 n3 n4 n5 : nat → bool) st u c b r :
  c ∈ config_ids → b ∈ budget_ids → r ∈ reason_ids →
  let flow := λ k1 k2 k3 k4 k5 : nat → bool,
    [ (k1, Some (body_of (typed u "hi")));
      (k2, Some (body_of (pressed u "BTN_SEARCH")));
      (k3, Some (body_of (picked u c)));
      (k4, Some (body_of (picked u b)));
      (k5, Some (body_of (pressed u r))) ] in
  let selected :=
    {| step := DONE;
       config := Some (replace "CFG_" "" c);
       budget := Some (replaceAll "_" " " (replace "BUD_" "" b));
       reason := Some (if decide (r = "RSN_SELF") then "Self Use" else "Investment") |} in
  let nl := String "010"%char "" in
  run (flow n1 n2 n3 n4 n5) st = <[u := selected]> st ∧
  transcript (flow accepting accepting accepting accepting accepting) st =
    [ {| messaging_product := "whatsapp";
         to := u;
         content := interactive_out (button
           ("👋 Hi! Welcome to *Nivaara Realty* 🏡" +:+ nl +:+ nl +:+
            "We simplify your real estate journey across Pune and beyond." +:+ nl +:+
            "Please choose an option below to get started ⬇️")
           [ {| id_ := "BTN_SEARCH"; title := "Search Property" |};
             {| id_ := "BTN_WHY"; title := "Why Nivaara?" |};
             {| id_ := "BTN_EXPERT"; title := "Talk to Expert" |} ]) |};
      {| messaging_product := "whatsapp";
         to := u;
         content := interactive_out (list_
           "🏠 Select configuration" "Choose" "Configuration"
           [ {| id_ := "CFG_1BHK"; title := "1 BHK" |};
             {| id_ := "CFG_2BHK"; title := "2 BHK" |};
             {| id_ := "CFG_3BHK"; title := "3 BHK" |};
             {| id_ := "CFG_4PLUS"; title := "4+ BHK" |} ]) |};
      {| messaging_product := "whatsapp";
         to := u;
         content := interactive_out (list_
           "💰 Choose your price range" "Select" "Price Range"
           [ {| id_ := "BUD_BELOW_50"; title := "Below ₹50L" |};
             {| id_ := "BUD_50_75"; title := "₹50–75L" |};
             {| id_ := "BUD_75_1CR"; title := "₹75L–1Cr" |};
             {| id_ := "BUD_1CR_PLUS"; title := "₹1Cr+" |} ]) |};
      {| messaging_product := "whatsapp";
         to := u;
         content := interactive_out (button
           "Almost done! Why are you looking to buy?"
           [ {| id_ := "RSN_SELF"; title := "Self Use" |};
             {| id_ := "RSN_INVEST"; title := "Investment" |} ]) |};
      {| messaging_product := "whatsapp";
         to := u;
         content := text_out
           (("✅ Great! Here’s what you selected:" +:+ nl +:+
             "• Configuration: " +:+ replace "CFG_" "" c +:+ nl +:+
             "• Budget: " +:+ replaceAll "_" " " (replace "BUD_" "" b) +:+ nl +:+
             "• Purpose: " +:+ (if decide (r = "RSN_SELF") then "Self Use" else "Investment") +:+ nl +:+ nl) +:+
            "👉 Browse matching properties here: " +:+ "https://nivaararealty.com/" +:+ nl +:+
            "Or type *CALLBACK* to connect with our expert.") |};
      {| messaging_product := "whatsapp";
         to := u;
         content := interactive_out (button
           ("👋 Hi! Welcome to *Nivaara Realty* 🏡" +:+ nl +:+ nl +:+
            "We simplify your real estate journey across Pune and beyond." +:+ nl +:+
            "Please choose an option below to get started ⬇️")
           [ {| id_ := "BTN_SEARCH"; title := "Search Property" |};
             {| id_ := "BTN_WHY"; title := "Why Nivaara?" |};
             {| id_ := "BTN_EXPERT"; title := "Talk to Expert" |} ]) |} ].
Proof.
  intros Hc Hb Hr flow selected nl.
  assert (Hfinal : final u selected =
    {| messaging_product := "whatsapp";
         to := u;
         content := text_out
           (("✅ Great! Here’s what you selected:" +:+ nl +:+
             "• Configuration: " +:+ replace "CFG_" "" c +:+ nl +:+
             "• Budget: " +:+ replaceAll "_" " " (replace "BUD_" "" b) +:+ nl +:+
             "• Purpose: " +:+ (if decide (r = "RSN_SELF") then "Self Use" else "Investment") +:+ nl +:+ nl) +:+
            "👉 Browse matching properties here: " +:+ "https://nivaararealty.com/" +:+ nl +:+
            "Or type *CALLBACK* to connect with our expert.") |}).
  { unfold config_ids in Hc. unfold budget_ids in Hb. unfold reason_ids in Hr.
    each_of Hc; each_of Hb; each_of Hr; reflexivity. }
  set (cur := current st u).
  set (s1 := set_step MENU cur).
  set (s2 := set_step ASK_CONFIG s1).
  set (s3 := set_step ASK_BUDGET (set_config (replace "CFG_" "" c) s2)).
  set (s4 := set_step ASK_REASON
               (set_budget (replaceAll "_" " " (replace "BUD_" "" b)) s3)).
  assert (Hlabel : (if (r =? "RSN_SELF")%string then "Self Use" else "Investment") =
                   (if decide (r = "RSN_SELF") then "Self Use" else "Investment")).
  { unfold reason_ids in Hr. each_of Hr; reflexivity. }
  assert (H1 : ∀ n, post_webhook n (Some (body_of (typed u "hi"))) st =
                    {| response := sendStatus 200;
                       world := {| state := <[u := s1]> st; sent := [(welcome u, n 0)] |};
                       logged := if n 0 then [] else [SendError (welcome u)] |}).
  { intros n. unfold post_webhook.
    rewrite (handle_rule1 n (body_of (typed u "hi")) (typed u "hi") st eq_refl eq_refl
               eq_refl).
    by destruct (n 0). }
  assert (H2 : ∀ n, post_webhook n (Some (body_of (pressed u "BTN_SEARCH"))) (<[u := s1]> st) =
                    {| response := sendStatus 200;
                       world := {| state := <[u := s2]> st; sent := [(configList u, n 0)] |};
                       logged := if n 0 then [] else [SendError (configList u)] |}).
  { intros n.
    rewrite (post_reply_on n u s1 st _ (pressed u "BTN_SEARCH") "BTN_SEARCH")
      by done.
    rewrite route_search. by destruct (n 0). }
  assert (H3 : ∀ n, post_webhook n (Some (body_of (picked u c))) (<[u := s2]> st) =
                    {| response := sendStatus 200;
                       world := {| state := <[u := s3]> st; sent := [(budgetList u, n 0)] |};
                       logged := if n 0 then [] else [SendError (budgetList u)] |}).
  { intros n.
    rewrite (post_reply_on n u s2 st _ (picked u c) c) by done.
    rewrite (route_config n u s2 st c Hc). by destruct (n 0). }
  assert (H4 : ∀ n, post_webhook n (Some (body_of (picked u b))) (<[u := s3]> st) =
                    {| response := sendStatus 200;
                       world := {| state := <[u := s4]> st; sent := [(reasonButtons u, n 0)] |};
                       logged := if n 0 then [] else [SendError (reasonButtons u)] |}).
  { intros n.
    rewrite (post_reply_on n u s3 st _ (picked u b) b) by done.
    rewrite (route_budget n u s3 st b Hb). by destruct (n 0). }
  assert (H5 : ∀ n, state (world (post_webhook n (Some (body_of (pressed u r)))
                                    (<[u := s4]> st))) = <[u := selected]> st ∧
                    (n 0 = true → n 1 = true →
                     sent (world (post_webhook n (Some (body_of (pressed u r)))
                                    (<[u := s4]> st))) =
                     [(final u selected, true); (welcome u, true)])).
  { intros n.
    rewrite (post_reply_on n u s4 st _ (pressed u r) r) by done.
    rewrite (route_reason n u s4 st r Hr). cbv zeta. rewrite Hlabel.
    change (set_step DONE (set_reason _ s4)) with selected.
    split.
    - by destruct (n 0); [destruct (n 1)|].
    - by intros -> ->. }
  split.
  - unfold flow, run. cbn [foldl]. unfold deliver at 5; cbn [fst snd]. rewrite H1.
    cbn [world state]. unfold deliver at 4; cbn [fst snd]. rewrite H2.
    cbn [world state]. unfold deliver at 3; cbn [fst snd]. rewrite H3.
    cbn [world state]. unfold deliver at 2; cbn [fst snd]. rewrite H4.
    cbn [world state]. unfold deliver; cbn [fst snd]. apply H5.
  - unfold flow. cbn [transcript fst snd].
    rewrite H1. cbn [world state sent]. rewrite H2. cbn [world state sent].
    rewrite H3. cbn [world state sent]. rewrite H4. cbn [world state sent].
    rewrite (proj2 (H5 accepting) eq_refl eq_refl), Hfinal. reflexivity.
Qed.

Lemma complete_flow_stores_the_three_selections_witness :
  let st : gmap string UserState :=
    {["111" := {| step := DONE; config := Some "1BHK"; budget := Some "BELOW 50";
                  reason := Some "Self Use" |}]} in
  let flow := λ k : nat → bool,
    [ (k, Some (body_of (typed "111" "hi")));
      (k, Some (body_of (pressed "111" "BTN_SEARCH")));
      (k, Some (body_of (picked "111" "CFG_4PLUS")));
      (k, Some (body_of (picked "111" "BUD_1CR_PLUS")));
      (k, Some (body_of (pressed "111" "RSN_INVEST"))) ] in
  let nl := String "010"%char "" in
  run (flow rejecting) st !! "111"
  = Some {| step := DONE; config := Some "4PLUS"; budget := Some "1CR PLUS";
            reason := Some "Investment" |} ∧
  transcript (flow accepting) st =
    [ {| messaging_product := "whatsapp";
         to := "111";
         content := interactive_out (button
           ("👋 Hi! Welcome to *Nivaara Realty* 🏡" +:+ nl +:+ nl +:+
            "We simplify your real estate journey across Pune and beyond." +:+ nl +:+
            "Please choose an option below to get started ⬇️")
           [ {| id_ := "BTN_SEARCH"; title := "Search Property" |};
             {| id_ := "BTN_WHY"; title := "Why Nivaara?" |};
             {| id_ := "BTN_EXPERT"; title := "Talk to Expert" |} ]) |};
      {| messaging_product := "whatsapp";
         to := "111";
         content := interactive_out (list_
           "🏠 Select configuration" "Choose" "Configuration"
           [ {| id_ := "CFG_1BHK"; title := "1 BHK" |};
             {| id_ := "CFG_2BHK"; title := "2 BHK" |};
             {| id_ := "CFG_3BHK"; title := "3 BHK" |};
             {| id_ := "CFG_4PLUS"; title := "4+ BHK" |} ]) |};
      {| messaging_product := "whatsapp";
         to := "111";
         content := interactive_out (list_
           "💰 Choose your price range" "Select" "Price Range"
           [ {| id_ := "BUD_BELOW_50"; title := "Below ₹50L" |};
             {| id_ := "BUD_50_75"; title := "₹50–75L" |};
             {| id_ := "BUD_75_1CR"; title := "₹75L–1Cr" |};
             {| id_ := "BUD_1CR_PLUS"; title := "₹1Cr+" |} ]) |};
      {| messaging_product := "whatsapp";
         to := "111";
         content := interactive_out (button
           "Almost done! Why are you looking to buy?"
           [ {| id_ := "RSN_SELF"; title := "Self Use" |};
             {| id_ := "RSN_INVEST"; title := "Investment" |} ]) |};
      {| messaging_product := "whatsapp";
         to := "111";
         content := text_out
           ("✅ Great! Here’s what you selected:" +:+ nl +:+
            "• Configuration: " +:+ "4PLUS" +:+ nl +:+
            "• Budget: " +:+ "1CR PLUS" +:+ nl +:+
            "• Purpose: " +:+ "Investment" +:+ nl +:+ nl +:+
            "👉 Browse matching properties here: https://nivaararealty.com/" +:+ nl +:+
            "Or type *CALLBACK* to connect with our expert.") |};
      {| messaging_product := "whatsapp";
         to := "111";
         content := interactive_out (button
           ("👋 Hi! Welcome to *Nivaara Realty* 🏡" +:+ nl +:+ nl +:+
            "We simplify your real estate journey across Pune and beyond." +:+ nl +:+
            "Please choose an option below to get started ⬇️")
           [ {| id_ := "BTN_SEARCH"; title := "Search Property" |};
             {| id_ := "BTN_WHY"; title := "Why Nivaara?" |};
             {| id_ := "BTN_EXPERT"; title := "Talk to Expert" |} ]) |} ].
Proof.
  intros st flow nl.
  pose proof (complete_flow_stores_the_three_selections
                rejecting rejecting rejecting rejecting rejecting
                st "111" "CFG_4PLUS" "BUD_1CR_PLUS" "RSN_INVEST"
                ltac:(unfold config_ids; in_list)
                ltac:(unfold budget_ids; in_list)
                ltac:(unfold reason_ids; in_list)) as [Hrun Htr].
  split; [|exact Htr].
  unfold flow. rewrite Hrun. apply lookup_insert_eq.
Defined.

(** X10. [getUserState] never overwrites: a stored state is handed out as
    it is and the Map is left unchanged; for an unknown user the default
    state (START, nothing selected) is stored and handed out.  No other
    key is touched, nothing is sent, and a second call changes nothing
    more. *)
Theorem getUserState_keeps_what_is_stored waId w :
  let r := getUserState waId w in
  r.1 = inr waId ∧
  sent r.2 = sent w ∧
  state r.2 !! waId = Some (default new_user (state w !! waId)) ∧
  (is_Some (state w !! waId) → state r.2 = state w) ∧
  (state w !! waId = None → state r.2 = <[waId := new_user]> (state w)) ∧
  (∀ v, v ≠ waId → state r.2 !! v = state w !! v) ∧
  getUserState waId r.2 = r.
Proof.
  unfold getUserState. cbn [fst snd state sent].
  destruct (state w !! waId) as [u|] eqn:E; cbn [default].
  - split; [done|]. split; [done|]. split; [done|]. split; [done|].
    split; [done|]. split; [done|].
    cbn [state sent]. by rewrite E.
  - split; [done|]. split; [done|]. split; [apply lookup_insert_eq|].
    split; [by intros [? ?]|]. split; [done|].
    split; [intros v Hv; by rewrite lookup_insert_ne|].
    cbn [state sent]. by rewrite lookup_insert_eq.
Qed.

Lemma getUserState_keeps_what_is_stored_witness :
  let u := {| step := ASK_BUDGET; config := Some "3BHK"; budget := None; reason := None |} in
  let w := {| state := {["111" := u]}; sent := [] |} in
  state (getUserState "111" w).2 = state w ∧
  state (getUserState "222" w).2 = <["222" := new_user]> (state w).
Proof.
  intros u w. split.
  - apply (getUserState_keeps_what_is_stored "111" w). by exists u.
  - apply (getUserState_keeps_what_is_stored "222" w). reflexivity.
Defined.



(** X12. The users the Map knows after a delivery are those it knew
    before and the sender of the message, if the delivery carries one:
    no entry is deleted, and none is created for anyone else. *)
Theorem known_users_grow_by_the_sender net req st :
  dom (state (world (post_webhook net req st))) =
  dom st ∪ from_option (λ m, {[from m]}) ∅ (req ≫= first_message).
Proof.
  destruct (delivery_shape net req st)
    as [_ [(-> & _ & Hno)|(b & m & s' & ps & -> & Hm & -> & _)]].
  - destruct Hno as [-> | (b & -> & Hm)].
    + change (None ≫= first_message) with (@None Message).
      cbn [from_option]. by rewrite (right_id_L ∅ (∪)).
    + change (Some b ≫= first_message) with (first_message b).
      rewrite Hm. cbn [from_option]. by rewrite (right_id_L ∅ (∪)).
  - change (Some b ≫= first_message) with (first_message b).
    rewrite Hm. cbn [from_option]. by rewrite dom_insert_L, (comm_L (∪)).
Qed.

Lemma send_all_errors net ps : ∀ k e,
  e ∈ (send_all net k ps).2 → ∃ p, e = SendError p.
Proof.
  induction ps as [|q ps IH]; intros k e; cbn [send_all].
  - intros H. by apply elem_of_nil in H.
  - destruct (net k); cbn [snd]; [apply IH|].
    intros H. apply elem_of_cons in H as [->|H]; [by eexists|].
    by apply elem_of_nil in H.
Qed.

(** X13. [console.error] prints at most once per delivery.  It prints
    nothing exactly when the request has a body, its message, if it has
    one, can be read, and every call of [sendMessage] was accepted.  It
    prints a [TypeError] exactly when the request has no body or its
    message cannot be read; what else it prints is what a rejected call
    raised. *)
Theorem errors_are_printed_once net req st :
  let o := post_webhook net req st in
  (length (logged o) ≤ 1)%nat ∧
  (logged o = [] ↔
     req ≠ None ∧
     (∀ b m, req = Some b → first_message b = Some m → readable m = true) ∧
     Forall (λ a, a.2 = true) (sent (world o))) ∧
  (TypeError ∈ logged o ↔
     req = None ∨
     ∃ b m, req = Some b ∧ first_message b = Some m ∧ readable m = false) ∧
  (∀ p, SendError p ∈ logged o → (p, false) ∈ sent (world o)).
Proof.
  destruct req as [b|].
  2:{ cbn. split; [apply le_n|]. split; [split; [done|by intros [? _]]|].
      split; [split; [by left|intros _; apply list_elem_of_here]|].
      intros p H. apply elem_of_cons in H as [H|H]; [discriminate H|].
      by apply elem_of_nil in H. }
  destruct (first_message b) as [m|] eqn:Hm.
  2:{ unfold post_webhook, handle. rewrite Hm. cbn.
      split; [apply le_S, le_n|].
      split; [split; [intros _; split; [done|]; split; [|done]|done]|].
      { intros b' m' [= <-] Hm'. by rewrite Hm in Hm'. }
      split; [split; [intros H; by apply elem_of_nil in H|]|].
      { intros [?|(b' & m' & [= <-] & Hm' & _)]; [done|]. by rewrite Hm in Hm'. }
      intros p H. by apply elem_of_nil in H. }
  cbv zeta.
  destruct (readable m) eqn:Hr.
  2:{ unfold post_webhook. rewrite (handle_unreadable net b m st Hm Hr).
      cbn [logged world sent length].
      split; [apply le_n|]. split; [split; [done|]|].
      { intros (_ & H & _). specialize (H b m eq_refl Hm). by rewrite Hr in H. }
      split; [split; [|intros _; apply list_elem_of_here]|].
      { intros _. right. by exists b, m. }
      intros p H. apply elem_of_cons in H as [H|H]; [discriminate H|].
      by apply elem_of_nil in H. }
  assert (Hshape : ∃ ps, sent (world (post_webhook net (Some b) st)) = (send_all net 0 ps).1 ∧
                         logged (post_webhook net (Some b) st) = (send_all net 0 ps).2).
  { destruct (delivery_cases net b m (current st (from m)) (λ _ _, True) Hm)
      as (s' & ps & _ & Hall); try done.
    destruct (Hall st eq_refl) as (_ & _ & Hs & Hl). rewrite Hr in Hl. by exists ps. }
  destruct Hshape as (ps & Hs & Hl).
  rewrite Hs, Hl. clear Hs Hl.
  destruct (send_all_logged net ps 0) as [Hlen Hnil].
  split; [done|]. split; [|split].
  - rewrite Hnil. split.
    + intros H. split; [done|]. split; [|done].
      intros b' m' [= <-] Hm'. rewrite Hm in Hm'. by injection Hm' as <-.
    + by intros (_ & _ & ?).
  - split.
    + intros H. by destruct (send_all_errors net ps 0 _ H).
    + intros [?|(b' & m' & [= <-] & Hm' & Hr')]; [done|].
      rewrite Hm in Hm'. injection Hm' as <-. by rewrite Hr in Hr'.
  - intros p H. clear -H. revert H. generalize 0.
    induction ps as [|q ps IH]; intros k; cbn [send_all].
    + intros H. by apply elem_of_nil in H.
    + destruct (net k); cbn [fst snd]; intros H.
      * apply list_elem_of_further. by apply (IH (S k)).
      * apply elem_of_cons in H as [[= ->]|H]; [apply list_elem_of_here|].
        by apply elem_of_nil in H.
Qed.

Lemma test_literal_i_case lit s s' :
  lower s = lower s' → test_literal_i lit s = test_literal_i lit s'.
Proof.
  intros H. apply eq_true_iff_eq. by rewrite !test_literal_i_lower, H.
Qed.

(** X14. A typed text is handled by its trimmed letters, whatever their
    case: two texts that are equal once trimmed and put in lower case get
    the same response, the same calls and the same store.  So "HI",
    " Hi " and "hi" are one command, and so are the spellings of
    "callback". *)
Theorem typed_text_is_handled_up_to_case net u s s' st :
  lower (trim s) = lower (trim s') →
  post_webhook net (Some (body_of (typed u s))) st =
  post_webhook net (Some (body_of (typed u s'))) st.
Proof.
  intros Heq.
  assert (Ht : ∀ x, incoming_text (typed u x) = trim x) by (by intros []).
  assert (E1 : test_hi_hello (incoming_text (typed u s)) =
               test_hi_hello (incoming_text (typed u s'))).
  { rewrite !Ht. unfold test_hi_hello. by rewrite !(test_literal_i_case _ _ _ Heq). }
  assert (E2 : test_callback (incoming_text (typed u s)) =
               test_callback (incoming_text (typed u s'))).
  { rewrite !Ht. unfold test_callback. by rewrite (test_literal_i_case _ _ _ Heq). }
  unfold post_webhook.
  destruct (test_hi_hello (incoming_text (typed u s'))
            || bool_decide (step (current st u) = START)) eqn:H1.
  { assert (H1s : test_hi_hello (incoming_text (typed u s))
                  || bool_decide (step (current st u) = START) = true) by by rewrite E1.
    by rewrite (handle_rule1 net (body_of (typed u s')) (typed u s') st eq_refl eq_refl H1),
               (handle_rule1 net (body_of (typed u s)) (typed u s) st eq_refl eq_refl H1s). }
  assert (H1s : test_hi_hello (incoming_text (typed u s))
                || bool_decide (step (current st u) = START) = false) by by rewrite E1.
  destruct (test_callback (incoming_text (typed u s'))) eqn:H2.
  { by rewrite (handle_rule2 net (body_of (typed u s')) (typed u s') st eq_refl eq_refl H1 H2),
               (handle_rule2 net (body_of (typed u s)) (typed u s) st eq_refl eq_refl H1s E2). }
  by rewrite (handle_rule3 net (body_of (typed u s')) (typed u s') st eq_refl eq_refl H1 H2),
             (handle_rule3 net (body_of (typed u s)) (typed u s) st eq_refl eq_refl H1s E2).
Qed.

Lemma typed_text_is_handled_up_to_case_witness :
  let st : gmap string UserState :=
    {["111" := {| step := ASK_BUDGET; config := Some "2BHK"; budget := None;
                  reason := None |}]} in
  post_webhook accepting (Some (body_of (typed "111" ("  CallBack" +:+ LF)))) st =
  post_webhook accepting (Some (body_of (typed "111" "callback"))) st.
Proof.
  intros st.
  apply (typed_text_is_handled_up_to_case accepting "111" ("  CallBack" +:+ LF) "callback" st).
  reflexivity.
Defined.

(** X15. Deliveries from two different users do not interfere: handled in
    either order they leave the same store, and each makes the calls it
    would have made alone. *)
Theorem deliveries_of_different_users_commute net1 net2 b1 b2 m1 m2 st :
  first_message b1 = Some m1 →
  first_message b2 = Some m2 →
  from m1 ≠ from m2 →
  let o1 := post_webhook net1 (Some b1) st in
  let o2 := post_webhook net2 (Some b2) st in
  let o12 := post_webhook net2 (Some b2) (state (world o1)) in
  let o21 := post_webhook net1 (Some b1) (state (world o2)) in
  state (world o12) = state (world o21) ∧
  sent (world o12) = sent (world o2) ∧ logged o12 = logged o2 ∧
  sent (world o21) = sent (world o1) ∧ logged o21 = logged o1.
Proof.
  intros Hm1 Hm2 Hne o1 o2 o12 o21.
  destruct (delivery_of_message net1 b1 m1 (current st (from m1)) Hm1)
    as (s1 & ps1 & lg1 & _ & _ & _ & Hall1).
  destruct (delivery_of_message net2 b2 m2 (current st (from m2)) Hm2)
    as (s2 & ps2 & lg2 & _ & _ & _ & Hall2).
  destruct (Hall1 st eq_refl) as (_ & Hst1 & Hsent1 & Hlog1).
  destruct (Hall2 st eq_refl) as (_ & Hst2 & Hsent2 & Hlog2).
  fold o1 in Hst1, Hsent1, Hlog1. fold o2 in Hst2, Hsent2, Hlog2.
  destruct (Hall2 (state (world o1))) as (_ & Hst12 & Hsent12 & Hlog12).
  { unfold current. by rewrite Hst1, lookup_insert_ne. }
  destruct (Hall1 (state (world o2))) as (_ & Hst21 & Hsent21 & Hlog21).
  { unfold current. by rewrite Hst2, lookup_insert_ne. }
  fold o12 in Hst12, Hsent12, Hlog12. fold o21 in Hst21, Hsent21, Hlog21.
  split.
  - rewrite Hst12, Hst21, Hst1, Hst2. by apply insert_insert_ne.
  - by rewrite Hsent12, Hsent2, Hlog12, Hlog2, Hsent21, Hsent1, Hlog21, Hlog1.
Qed.

Lemma deliveries_of_different_users_commute_witness :
  let st : gmap string UserState :=
    {["111" := {| step := ASK_CONFIG; config := None; budget := None; reason := None |}]} in
  let m1 := picked "111" "CFG_1BHK" in
  let m2 := typed "222" "hello" in
  run [(accepting, Some (body_of m1)); (rejecting, Some (body_of m2))] st =
  run [(rejecting, Some (body_of m2)); (accepting, Some (body_of m1))] st.
Proof.
  intros st m1 m2.
  apply (deliveries_of_different_users_commute accepting rejecting
           (body_of m1) (body_of m2) m1 m2 st eq_refl eq_refl).
  discriminate.
Defined.

(** X16. A message the handler cannot read.  When the message is of
    type interactive and has no [interactive] object, or is a button or a
    list reply without the member of that name, or is a text whose body
    is neither a string nor falsy, reading it raises: the delivery is
    answered 200, nothing is sent, one [TypeError] is printed, and the
    store holds for the sender what [getUserState] handed out, that is
    the state it had or the START state with nothing selected. *)
Theorem unreadable_message_is_dropped net b m st :
  first_message b = Some m →
  msg m = interactive None ∨
  msg m = interactive (Some (button_reply None)) ∨
  msg m = interactive (Some (list_reply None)) ∨
  msg m = text truthy →
  let o := post_webhook net (Some b) st in
  response o = {| status := 200; body := Some "OK" |} ∧
  sent (world o) = [] ∧
  logged o = [TypeError] ∧
  state (world o) =
    <[from m := default {| step := START; config := None; budget := None;
                           reason := None |} (st !! from m)]> st.
Proof.
  intros Hm Hshape o.
  assert (Hr : readable m = false).
  { unfold readable. by destruct Hshape as [-> | [-> | [-> | ->]]]. }
  unfold o, post_webhook. by rewrite (handle_unreadable net b m st Hm Hr).
Qed.

Lemma unreadable_message_is_dropped_witness :
  let st : gmap string UserState :=
    {["111" := {| step := ASK_BUDGET; config := Some "2BHK"; budget := None;
                  reason := None |}]} in
  let m := {| from := "111"; msg := interactive (Some (list_reply None)) |} in
  let m' := {| from := "222"; msg := text truthy |} in
  let o := post_webhook accepting (Some (body_of m)) st in
  let o' := post_webhook accepting (Some (body_of m')) st in
  (sent (world o) = [] ∧ logged o = [TypeError] ∧ state (world o) = st) ∧
  (sent (world o') = [] ∧ logged o' = [TypeError] ∧
   state (world o') =
     <["222" := {| step := START; config := None; budget := None; reason := None |}]> st).
Proof.
  intros st m m' o o'. split.
  - destruct (unreadable_message_is_dropped accepting (body_of m) m st eq_refl)
      as (_ & Hsent & Hlog & Hst); [right; right; left; reflexivity|].
    split; [exact Hsent|]. split; [exact Hlog|].
    unfold o. rewrite Hst. reflexivity.
  - destruct (unreadable_message_is_dropped accepting (body_of m') m' st eq_refl)
      as (_ & Hsent & Hlog & Hst); [right; right; right; reflexivity|].
    split; [exact Hsent|]. split; [exact Hlog|]. exact Hst.
Defined.

(** X17. The callback command.  A sender who is past START and types
    callback, in any case and with spaces around it, is sent the request
    for name, area and budget; when the call is accepted the step becomes
    LEAD_CAPTURE and the selections stay, and when it is rejected the
    store is left as it was. *)
Theorem callback_asks_for_contact net b m st body cur :
  first_message b = Some m →
  msg m = text (str body) →
  lower (trim body) = "callback" →
  st !! from m = Some cur →
  step cur ≠ START →
  let o := post_webhook net (Some b) st in
  response o = {| status := 200; body := Some "OK" |} ∧
  sent (world o) =
    [({| messaging_product := "whatsapp";
        to := from m;
        content := text_out
          ("📞 Please share your *Name + Preferred Area + Budget* and our advisor will call you shortly.") |},
      net 0)] ∧
  state (world o) =
    if net 0
    then <[from m := {| step := LEAD_CAPTURE; config := config cur; budget := budget cur;
                        reason := reason cur |}]> st
    else st.
Proof.
  intros Hm Hmsg Hbody Hcur Hs o.
  assert (Hc : current st (from m) = cur) by by apply current_Some.
  assert (Ht : incoming_text m = trim body) by by apply text_incoming.
  assert (H1 : test_hi_hello (incoming_text m)
               || bool_decide (step (current st (from m)) = START) = false).
  { apply rule1_skipped. rewrite Hc, Ht, Hbody. by repeat split. }
  assert (H2 : test_callback (incoming_text m) = true).
  { apply test_callback_lower. by rewrite Ht. }
  unfold o, post_webhook.
  rewrite (handle_rule2 net b m st Hm (text_readable m body Hmsg) H1 H2), Hc.
  destruct (net 0); [done|].
  by rewrite (insert_id st (from m) cur Hcur).
Qed.

Lemma callback_asks_for_contact_witness :
  let st : gmap string UserState :=
    {["111" := {| step := ASK_REASON; config := Some "2BHK"; budget := Some "50 75";
                  reason := None |}]} in
  let o := post_webhook accepting (Some (body_of (typed "111" " CallBack "))) st in
  sent (world o) =
    [({| messaging_product := "whatsapp";
        to := "111";
        content := text_out
          ("📞 Please share your *Name + Preferred Area + Budget* and our advisor will call you shortly.") |},
      true)] ∧
  state (world o) !! "111" =
    Some {| step := LEAD_CAPTURE; config := Some "2BHK"; budget := Some "50 75";
            reason := None |}.
Proof.
  intros st o.
  destruct (callback_asks_for_contact accepting
              (body_of (typed "111" " CallBack ")) (typed "111" " CallBack ") st
              " CallBack "
              {| step := ASK_REASON; config := Some "2BHK"; budget := Some "50 75";
                 reason := None |})
    as (_ & Hsent & Hst); [reflexivity|reflexivity|reflexivity|reflexivity|discriminate|].
  split; [exact Hsent|]. unfold o. rewrite Hst. reflexivity.
Defined.
